(** * The conversation backend of [app.py], as a shallow embedding

    The handler works on the Python objects that [request.get_json()]
    builds, and it mutates two of them in place (the body dictionary and
    its message list).  The model therefore keeps a store of objects
    addressed by reference, threads it through every operation together
    with the log of outbound calls to the completion endpoint, and lets
    every operation either return or raise. *)

From stdpp Require Import gmap strings list fin_maps.
From Stdlib Require Import ZArith.

Local Open Scope string_scope.

(** ** Python values and objects *)

Module Py.

Abbreviation loc := positive (only parsing).

(** An immediate value, or a reference to a mutable container. *)
Inductive val : Type :=
  | VNone
  | VBool (b : bool)
  | VInt (n : Z)
  | VFloat (bits : Z)   (* an IEEE double by its bit pattern; never inspected *)
  | VStr (s : string)
  | VRef (l : loc).

Inductive obj : Type :=
  | ODict (d : gmap string val)
  | OList (xs : list val).

Abbreviation heap := (gmap positive obj) (only parsing).

Global Instance val_eq_dec : EqDecision val.
Proof. solve_decision. Defined.

(** An instance of [Exception] or of a subclass: its class, [str(ex)],
    and the [status_code] attribute when the instance has one.  What is
    raised outside [Exception] (the cancellation of the request's task,
    the exit of the interpreter) is not an [exn]: no operation of the
    model raises it, and nothing here says what the code does then. *)
Record exn := Exn {
  exn_class : string;
  exn_str : string;
  exn_status_code : option Z
}.

(** What the process has done so far: the object store, and the keyword
    arguments of every call issued to the completion endpoint, each with
    the store as it was when the call was made. *)
Record state := State {
  st_heap : gmap positive obj;
  st_calls : list (gmap string val * gmap positive obj)
}.

Definition set_heap (f : gmap positive obj → gmap positive obj) (st : state) : state :=
  {| st_heap := f (st_heap st); st_calls := st_calls st |}.

Definition log_call (kw : gmap string val) (st : state) : state :=
  {| st_heap := st_heap st; st_calls := st_calls st ++ [(kw, st_heap st)] |}.

Inductive outcome (A : Type) : Type :=
  | Ret (a : A)
  | Raise (e : exn).
Global Arguments Ret {A} a.
Global Arguments Raise {A} e.

(** A computation: it runs from a state, returns or raises, and leaves a
    state behind either way. *)
Definition M (A : Type) : Type := state → outcome A * state.

Definition ret {A} (a : A) : M A := λ st, (Ret a, st).
Definition raise {A} (e : exn) : M A := λ st, (Raise e, st).
Definition bind {A B} (m : M A) (k : A → M B) : M B :=
  λ st, match m st with
        | (Ret a, st') => k a st'
        | (Raise e, st') => (Raise e, st')
        end.
(** [try: m  except Exception as ex: h ex].  Every [exn] is an instance
    of [Exception], so the clause takes each one. *)
Definition try_except {A} (m : M A) (h : exn → M A) : M A :=
  λ st, match m st with
        | (Ret a, st') => (Ret a, st')
        | (Raise e, st') => h e st'
        end.
(** Lifting the result of an external collaborator. *)
Definition lift {A} (r : exn + A) : M A :=
  match r with inl e => raise e | inr a => ret a end.

Declare Scope py_scope.
Delimit Scope py_scope with py.
Notation "'do' x <- m ; k" := (bind m (λ x, k))
  (at level 10, x name, m at level 100, k at level 200) : py_scope.
Notation "m ;; k" := (bind m (λ _, k))
  (at level 100, k at level 200, right associativity) : py_scope.
Local Open Scope py_scope.

(** *** Built-in behaviour used by the handler *)

Definition deref (h : gmap positive obj) (v : val) : option obj :=
  match v with VRef l => h !! l | _ => None end.

(** [type(v).__name__] *)
Definition type_name (h : gmap positive obj) (v : val) : string :=
  match v with
  | VNone => "NoneType"
  | VBool _ => "bool"
  | VInt _ => "int"
  | VFloat _ => "float"
  | VStr _ => "str"
  | VRef l => match h !! l with
              | Some (ODict _) => "dict"
              | Some (OList _) => "list"
              | None => "object"
              end
  end.

Definition AttributeError (h : gmap positive obj) (v : val) (attr : string) : exn :=
  Exn "AttributeError"
      ("'" ++ type_name h v ++ "' object has no attribute '" ++ attr ++ "'") None.

Definition TypeError_not_iterable (h : gmap positive obj) (v : val) : exn :=
  Exn "TypeError" ("'" ++ type_name h v ++ "' object is not iterable") None.

(** A fresh object; its reference is new to the store. *)
Definition alloc (o : obj) : M val :=
  λ st, let l := fresh (dom (st_heap st)) in
        (Ret (VRef l), set_heap <[l := o]> st).

(** Looking up the bound method [v.get]: only dictionaries have one. *)
Definition attr_get (v : val) : M (gmap string val) :=
  λ st, match deref (st_heap st) v with
        | Some (ODict d) => (Ret d, st)
        | _ => (Raise (AttributeError (st_heap st) v "get"), st)
        end.

(** [v.get(k, default)].  Python builds the default before the call; an
    unused default is garbage at once, so it is built here only when it
    is the result. *)
Definition dict_get (v : val) (k : string) (default : M val) : M val :=
  do d <- attr_get v;
  match d !! k with
  | Some x => ret x
  | None => default
  end.

(** Looking up the bound method [v.insert]: only lists have one. *)
Definition attr_insert (v : val) : M loc :=
  λ st, match v, deref (st_heap st) v with
        | VRef l, Some (OList _) => (Ret l, st)
        | _, _ => (Raise (AttributeError (st_heap st) v "insert"), st)
        end.

Definition list_insert_at (i : nat) (x : val) (xs : list val) : list val :=
  take i xs ++ x :: drop i xs.

(** [v.insert(i, arg)] for [0 <= i]: the method is looked up, then the
    argument is evaluated, then the list object is updated in place. *)
Definition list_insert (v : val) (i : nat) (arg : M val) : M unit :=
  do l <- attr_insert v;
  do x <- arg;
  λ st, match st_heap st !! l with
        | Some (OList xs) =>
            (Ret tt, set_heap <[l := OList (list_insert_at i x xs)]> st)
        | _ => (Raise (AttributeError (st_heap st) v "insert"), st)
        end.

(** [v[k] = x] for a string [k]: an update in place of the dictionary
    [v]; a list takes integer indices only. *)
Definition dict_setitem (v : val) (k : string) (x : val) : M unit :=
  λ st, match v, deref (st_heap st) v with
        | VRef l, Some (ODict d) =>
            (Ret tt, set_heap <[l := ODict (<[k := x]> d)]> st)
        | VRef l, Some (OList _) =>
            (Raise (Exn "TypeError"
                      "list indices must be integers or slices, not str" None), st)
        | _, _ =>
            (Raise (Exn "TypeError"
                      ("'" ++ type_name (st_heap st) v
                           ++ "' object does not support item assignment") None), st)
        end.

(** [iter(v)] run to the end: the elements of a list, the keys of a
    dictionary, the characters of a string.  The keys come in the map's
    order, not in insertion order; the handler only ever asks each of
    them for [get], which no string has. *)
Definition iterate (v : val) : M (list val) :=
  λ st, match v, deref (st_heap st) v with
        | VRef _, Some (OList xs) => (Ret xs, st)
        | VRef _, Some (ODict d) => (Ret (VStr <$> (map_to_list d).*1), st)
        | VStr s, _ => (Ret ((λ c, VStr (String c "")) <$> String.list_ascii_of_string s), st)
        | _, _ => (Raise (TypeError_not_iterable (st_heap st) v), st)
        end.

(** [[x for x in xs if cond(x)]], the elements taken in order; the
    first condition that raises ends the comprehension. *)
Fixpoint comprehension (cond : val → M bool) (xs : list val) : M (list val) :=
  match xs with
  | [] => ret []
  | x :: xs =>
      do b <- cond x;
      do rest <- comprehension cond xs;
      ret (if b then x :: rest else rest)
  end.

(** [not v] for an optional string. *)
Definition falsy (s : option string) : bool :=
  match s with
  | None => true
  | Some s => bool_decide (s = "")
  end.

(** [a or b] on optional strings. *)
Definition str_or (a : option string) (b : string) : string :=
  match a with
  | Some s => if bool_decide (s = "") then b else s
  | None => b
  end.

(** An optional string as a Python value. *)
Definition str_val (a : option string) : val :=
  match a with Some s => VStr s | None => VNone end.

(** An optional string inside an f-string. *)
Definition fmt (a : option string) : string :=
  match a with Some s => s | None => "None" end.

End Py.

Import Py.
Local Open Scope py_scope.

(** ** The request, and [request.get_json()] *)

(** A JSON document as it is written: an object is its sequence of
    members, in order, repeated names included. *)
#[warnings="-register-all"]
Inductive json : Type :=
  | JNull
  | JBool (b : bool)
  | JInt (n : Z)
  | JFloat (bits : Z)
  | JStr (s : string)
  | JArr (js : list json)
  | JObj (kvs : list (string * json)).

(** The decoder builds one new object per array and per object of the
    document; of two members with one name the later one stays. *)
Fixpoint load (j : json) : M val :=
  match j with
  | JNull => ret VNone
  | JBool b => ret (VBool b)
  | JInt n => ret (VInt n)
  | JFloat b => ret (VFloat b)
  | JStr s => ret (VStr s)
  | JArr js =>
      do vs <- (fix load_items (js : list json) : M (list val) :=
                  match js with
                  | [] => ret []
                  | j :: js => do v <- load j; do vs <- load_items js; ret (v :: vs)
                  end) js;
      alloc (OList vs)
  | JObj kvs =>
      do d <- (fix load_members (kvs : list (string * json)) (d : gmap string val)
                 : M (gmap string val) :=
                 match kvs with
                 | [] => ret d
                 | (k, j) :: kvs => do v <- load j; load_members kvs (<[k := v]> d)
                 end) kvs ∅;
      alloc (ODict d)
  end.

(** The two inner loops of [load], by name. *)
Fixpoint load_items (js : list json) : M (list val) :=
  match js with
  | [] => ret []
  | j :: js => do v <- load j; do vs <- load_items js; ret (v :: vs)
  end.

Fixpoint load_members (kvs : list (string * json)) (d : gmap string val)
  : M (gmap string val) :=
  match kvs with
  | [] => ret d
  | (k, j) :: kvs => do v <- load j; load_members kvs (<[k := v]> d)
  end.

(** The part of Quart's request object that the handler reads.
    [is_json] is [request.is_json], the request declaring a JSON payload:
    it is what the handler means by a JSON request.  [body] is the
    payload decoded, [None] when it does not decode. *)
Record Request := {
  is_json : bool;
  body : option json;
  headers : gmap string string
}.

(** [request.get_json()] for a request that declares JSON (the handler
    asks for it in no other case): the decoded payload, or Bad Request. *)
Definition get_json (request : Request) : M val :=
  match body request with
  | Some j => load j
  | None => raise (Exn "BadRequest" "400 Bad Request: Failed to decode JSON object" None)
  end.

(** What a view function hands back: the dictionary given to [jsonify]
    and the status (200 when the view returns the body alone). *)
Record Response := {
  resp_body : gmap string val;
  resp_status : Z
}.

Definition jsonify (d : gmap string val) : gmap string val := d.

(** ** Configuration ([backend.settings], read only) *)

Record AzureOpenAISettings := {
  system_message : option string;
  temperature : val;
  max_tokens : val;
  top_p : val;
  stop_sequence : val;
  stream : val;
  model : val;
  endpoint : option string;
  resource : option string;
  preview_api_version : option string;
  key : option string
}.

Record ChatHistorySettings := {
  account : option string;
  account_key : option string;
  database : option string;
  conversations_container : option string;
  enable_feedback : bool
}.

Record AppSettings := {
  azure_openai : AzureOpenAISettings;
  chat_history : option ChatHistorySettings
}.

(** ** The completion provider's answer *)

Record ChatMessage := {
  msg_role : string;
  msg_content : string
}.

(** A parsed completion.  The provider may leave out the identifier, the
    model, or a choice's message. *)
Record ChatCompletion := {
  completion_id : option string;
  completion_model : option string;
  completion_created : Z;
  completion_object : string;
  completion_choices : list (option ChatMessage)
}.

Record RawResponse := {
  raw_parse : ChatCompletion;
  raw_headers : gmap string string
}.

Record OpenAIConfig := {
  api_version : option string;
  api_key : option string;
  azure_endpoint : string
}.

(** The arguments of the history store's client; the credential is the
    account key or a credential object. *)
Record CosmosConfig (Credential : Type) := {
  cosmosdb_endpoint : string;
  credential : string + Credential;
  database_name : option string;
  container_name : option string;
  enable_message_feedback : bool
}.
Arguments cosmosdb_endpoint {_} _.
Arguments credential {_} _.
Arguments database_name {_} _.
Arguments container_name {_} _.
Arguments enable_message_feedback {_} _.

(** ** Prompt table *)

Definition IT_PROMPT : string :=
  "You are an expert IT assistant. Provide detailed technical guidance and solutions for IT-related queries.".
Definition LEGAL_PROMPT : string :=
  "You are a professional legal assistant. Provide accurate, concise, and compliant legal advice.".

Definition SYSTEM_PROMPTS : gmap string string :=
  {[ "it" := IT_PROMPT; "legal" := LEGAL_PROMPT ]}.

(** ** Vocabulary of the statements *)

(** The value refers to a dictionary of the store. *)
Definition is_dict (h : gmap positive obj) (v : val) : Prop :=
  ∃ d, deref h v = Some (ODict d).

(** What [message.get("role")] reads in the store [h]. *)
Definition role_of (h : gmap positive obj) (v : val) : val :=
  match deref h v with
  | Some (ODict d) => default VNone (d !! "role")
  | _ => VNone
  end.

(** The message list of a request body [d]: the list under the key
    [messages], the empty list when the key is missing. *)
Definition original_messages (h : gmap positive obj) (d : gmap string val)
  : option (list val) :=
  match d !! "messages" with
  | None => Some []
  | Some v => match deref h v with
              | Some (OList xs) => Some xs
              | _ => None
              end
  end.

(** A computation respects a relation on states when every run of it,
    returning or raising, takes a state to a related one. *)
Definition respects {A} (R : relation state) (m : M A) : Prop :=
  ∀ st o st', m st = (o, st') → R st st'.

(** The references a value holds. *)
Definition refs (v : val) : gset positive :=
  match v with VRef l => {[ l ]} | _ => ∅ end.

(** What a run may do to the store when it writes only inside [S]:
    objects outside [S] stay as they are, and every dictionary stays a
    dictionary with the same fields, [messages] apart. *)
Definition frame (S : gset positive) : relation state := λ st st',
  (∀ l x, l ∉ S → st_heap st !! l = Some x → st_heap st' !! l = Some x) ∧
  (∀ l d, st_heap st !! l = Some (ODict d) →
          ∃ d', st_heap st' !! l = Some (ODict d') ∧
                ∀ k, k ≠ "messages" → d' !! k = d !! k).

(** No outbound call is added. *)
Definition same_calls : relation state := λ st st', st_calls st' = st_calls st.

(** The system message built for a prompt. *)
Definition system_message_dict (prompt : option string) : obj :=
  ODict {[ "role" := VStr "system"; "content" := str_val prompt ]}.

(** ** A sample deployment and sample requests, to run the model on *)

Definition sample_openai (default_prompt : option string) : AzureOpenAISettings :=
  {| system_message := default_prompt;
     temperature := VFloat 0;
     max_tokens := VInt 1000;
     top_p := VFloat 4607182418800017408;
     stop_sequence := VNone;
     stream := VBool false;
     model := VStr "gpt-x";
     endpoint := None;
     resource := Some "contoso";
     preview_api_version := Some "2024-02-15-preview";
     key := Some "secret" |}.

Definition sample_settings (default_prompt : option string) : AppSettings :=
  {| azure_openai := sample_openai default_prompt; chat_history := None |}.

Definition sample_settings_with_history : AppSettings :=
  {| azure_openai := sample_openai (Some "You are an AI assistant.");
     chat_history := Some {| account := Some "acct";
                             account_key := Some "history-key";
                             database := Some "db";
                             conversations_container := Some "conversations";
                             enable_feedback := false |} |}.

Definition sample_completion : ChatCompletion :=
  {| completion_id := Some "abc";
     completion_model := Some "gpt-x";
     completion_created := 0;
     completion_object := "chat.completion";
     completion_choices := [Some {| msg_role := "assistant"; msg_content := "hi" |}] |}.

Definition sample_client : OpenAIConfig → exn + unit := λ _, inr tt.

Definition upstream_replies
  : unit → gmap string val → gmap positive obj → exn + RawResponse :=
  λ _ _ _, inr {| raw_parse := sample_completion; raw_headers := ∅ |}.

Definition upstream_rate_limited
  : unit → gmap string val → gmap positive obj → exn + RawResponse :=
  λ _ _ _, inl (Exn "RateLimitError" "Error code: 429" (Some 429%Z)).

Definition upstream_unreachable
  : unit → gmap string val → gmap positive obj → exn + RawResponse :=
  λ _ _ _, inl (Exn "APIConnectionError" "Connection error." None).

Definition cosmos_fails : CosmosConfig unit → exn + unit :=
  λ _, inl (Exn "ValueError" "Invalid credentials" None).

Definition json_request (j : json) : Request :=
  {| is_json := true; body := Some j; headers := ∅ |}.

Definition text_request : Request :=
  {| is_json := false; body := None; headers := ∅ |}.

(** A request that declares JSON and whose payload does not decode, and
    one whose payload is a JSON document declared as something else. *)
Definition undecodable_request : Request :=
  {| is_json := true; body := None; headers := ∅ |}.

Definition undeclared_json_request (j : json) : Request :=
  {| is_json := false; body := Some j; headers := ∅ |}.

Definition user_message (content : string) : json :=
  JObj [("role", JStr "user"); ("content", JStr content)].

Definition tool_message (content : string) : json :=
  JObj [("role", JStr "tool"); ("content", JStr content)].

Definition sample_body : json :=
  JObj [("messages", JArr [user_message "my laptop will not boot";
                           tool_message "lookup: 3 results";
                           user_message "it beeps twice"]);
        ("history_metadata", JObj [("foo", JInt 1)])].

Definition empty_state : state := State ∅ [].

(** A state with an object that was there before the request. *)
Definition busy_state : state := State {[ 7%positive := OList [VStr "kept"] ]} [].

(** The objects the decoder builds for [sample_body] in the empty store. *)
Definition sample_dict : gmap string val :=
  {[ "messages" := VRef 4; "history_metadata" := VRef 5 ]}.

Definition sample_messages : list val := [VRef 1; VRef 2; VRef 3].

Definition sample_heap : gmap positive obj :=
  {[ 1%positive := ODict {[ "role" := VStr "user";
                            "content" := VStr "my laptop will not boot" ]};
     2%positive := ODict {[ "role" := VStr "tool";
                            "content" := VStr "lookup: 3 results" ]};
     3%positive := ODict {[ "role" := VStr "user";
                            "content" := VStr "it beeps twice" ]};
     4%positive := OList sample_messages;
     5%positive := ODict {[ "foo" := VInt 1 ]};
     6%positive := ODict sample_dict ]}.

(** A history store client that records the arguments it was built
    with, a credential constructor that fails, and deployments with an
    account key, without one, and with an explicit endpoint. *)
Definition cosmos_records : CosmosConfig unit → exn + CosmosConfig unit :=
  λ cfg, inr cfg.

Definition credential_fails : exn + unit :=
  inl (Exn "CredentialUnavailableError" "no credential available" None).

Definition sample_settings_without_key : AppSettings :=
  {| azure_openai := sample_openai (Some "You are an AI assistant.");
     chat_history := Some {| account := Some "acct";
                             account_key := None;
                             database := Some "db";
                             conversations_container := Some "conversations";
                             enable_feedback := true |} |}.

Definition sample_settings_with_endpoint : AppSettings :=
  {| azure_openai :=
       {| system_message := None;
          temperature := VFloat 0;
          max_tokens := VInt 1000;
          top_p := VFloat 4607182418800017408;
          stop_sequence := VNone;
          stream := VBool false;
          model := VStr "gpt-x";
          endpoint := Some "https://gateway.example/";
          resource := Some "contoso";
          preview_api_version := Some "2024-02-15-preview";
          key := Some "secret" |};
     chat_history := None |}.

(** A client constructor that records its configuration, and one that
    fails. *)
Definition client_records : OpenAIConfig → exn + OpenAIConfig := λ cfg, inr cfg.

Definition client_fails : OpenAIConfig → exn + unit :=
  λ _, inl (Exn "OpenAIError" "Missing credentials" None).

(** A store holding a body without a [messages] key. *)
Definition bare_heap : gmap positive obj := {[ 1%positive := ODict ∅ ]}.

(** A store holding a body whose messages have no tool message; the
    first message has no role at all. *)
Definition plain_messages : list val := [VRef 1; VRef 2].

Definition plain_dict : gmap string val := {[ "messages" := VRef 3 ]}.

Definition plain_heap : gmap positive obj :=
  {[ 1%positive := ODict {[ "content" := VStr "hello" ]};
     2%positive := ODict {[ "role" := VStr "assistant"; "content" := VStr "hi there" ]};
     3%positive := OList plain_messages;
     4%positive := ODict plain_dict ]}.

(** ** The application *)

Section App.

(** The configuration, and the external collaborators: the two client
    constructors, the credential constructor and the completion call.
    Each either returns or raises. *)
Context (app_settings : AppSettings).
Context {OpenAIClient CosmosClient Credential : Type}.
Context (AsyncAzureOpenAI : OpenAIConfig → exn + OpenAIClient).
Context (chat_completions_create :
           OpenAIClient → gmap string val → gmap positive obj → exn + RawResponse).
Context (DefaultAzureCredential : exn + Credential).

Context (CosmosConversationClient : CosmosConfig Credential → exn + CosmosClient).

(** *** Startup *)

(** The application object's client attribute (unset, [None] or a
    client) and the [cosmos_db_ready] event. *)
Record App := {
  cosmos_conversation_client : option (option CosmosClient);
  cosmos_db_ready : bool
}.

Definition create_app : App :=
  {| cosmos_conversation_client := None; cosmos_db_ready := false |}.

Definition init_cosmosdb_client : exn + option CosmosClient :=
  match chat_history app_settings with
  | None => inr None
  | Some ch =>
      let cosmos_endpoint := "https://" ++ fmt (account ch) ++ ".documents.azure.com:443/" in
      let credential : exn + (string + Credential) :=
        if falsy (account_key ch)
        then match DefaultAzureCredential with
             | inl e => inl e
             | inr c => inr (inr c)
             end
        else inr (inl (default "" (account_key ch))) in
      match credential with
      | inl e => inl e
      | inr credential =>
          match CosmosConversationClient
                  {| cosmosdb_endpoint := cosmos_endpoint;
                     credential := credential;
                     database_name := database ch;
                     container_name := conversations_container ch;
                     enable_message_feedback := enable_feedback ch |} with
          | inl e => inl e
          | inr cosmos_conversation_client => inr (Some cosmos_conversation_client)
          end
      end
  end.

(** The [before_serving] hook. *)
Definition init (app : App) : (exn + unit) * App :=
  match init_cosmosdb_client with
  | inr client =>
      (inr tt, {| cosmos_conversation_client := Some client; cosmos_db_ready := true |})
  | inl e =>
      (inl e, {| cosmos_conversation_client := Some None;
                 cosmos_db_ready := cosmos_db_ready app |})
  end.

(** Quart runs the hook before it accepts a request; a hook that
    raises ends the startup and the process serves nothing. *)
Inductive Phase :=
  | Serving
  | Aborted (e : exn).

Definition startup (app : App) : Phase * App :=
  match init app with
  | (inr _, app') => (Serving, app')
  | (inl e, app') => (Aborted e, app')
  end.

(** *** The conversation route *)

Definition prepare_model_args (request_body : val) (request_headers : gmap string string)
  : M (gmap string val) :=
  do messages <- dict_get request_body "messages" (alloc (OList []));
  ret (<["messages" := messages]>
      (<["temperature" := temperature (azure_openai app_settings)]>
      (<["max_tokens" := max_tokens (azure_openai app_settings)]>
      (<["top_p" := top_p (azure_openai app_settings)]>
      (<["stop" := stop_sequence (azure_openai app_settings)]>
      (<["stream" := stream (azure_openai app_settings)]>
      (<["model" := model (azure_openai app_settings)]> ∅))))))).

Definition init_openai_client : M OpenAIClient :=
  try_except
    (let endpoint :=
       str_or (endpoint (azure_openai app_settings))
              ("https://" ++ fmt (resource (azure_openai app_settings))
                          ++ ".openai.azure.com/") in
     do azure_openai_client <-
       lift (AsyncAzureOpenAI
               {| api_version := preview_api_version (azure_openai app_settings);
                  api_key := key (azure_openai app_settings);
                  azure_endpoint := endpoint |});
     ret azure_openai_client)
    (λ e, raise e).

(** [client.chat.completions.with_raw_response.create], given the
    model arguments as keywords: one outbound call, recorded with the store it can read. *)
Definition create (client : OpenAIClient) (model_args : gmap string val) : M RawResponse :=
  λ st, lift (chat_completions_create client model_args (st_heap st)) (log_call model_args st).

(** [message.get("role") != "tool"] *)
Definition not_tool (message : val) : M bool :=
  do role <- dict_get message "role" (ret VNone);
  ret (bool_decide (role ≠ VStr "tool")).

Definition send_chat_request (request_body : val) (request_headers : gmap string string)
  : M (ChatCompletion * option string) :=
  do messages <- dict_get request_body "messages" (alloc (OList []));
  do items <- iterate messages;
  do kept <- comprehension not_tool items;
  do filtered_messages <- alloc (OList kept);
  dict_setitem request_body "messages" filtered_messages;;
  do model_args <- prepare_model_args request_body request_headers;
  try_except
    (do azure_openai_client <- init_openai_client;
     do raw_response <- create azure_openai_client model_args;
     let response := raw_parse raw_response in
     let apim_request_id := raw_headers raw_response !! "apim-request-id" in
     ret (response, apim_request_id))
    (λ e, raise e).

(** Modelled from the spec: [format_non_streaming_response] of
    [backend.utils], which is not among the sources.  The reply has the
    fields id, model, created, object, choices and history_metadata; a
    missing identifier or model becomes the empty string; the first
    choice's message is the content of [choices[0].messages]; a
    response without it is a format error; the history metadata is the
    value it was given. *)
Definition format_non_streaming_response
    (response : ChatCompletion) (history_metadata : val) (apim_request_id : option string)
  : M (gmap string val) :=
  match completion_choices response with
  | Some m :: _ =>
      do message <- alloc (ODict {[ "role" := VStr (msg_role m);
                                    "content" := VStr (msg_content m) ]});
      do messages <- alloc (OList [message]);
      do choice <- alloc (ODict {[ "messages" := messages ]});
      do choices <- alloc (OList [choice]);
      ret (<["id" := VStr (default "" (completion_id response))]>
          (<["model" := VStr (default "" (completion_model response))]>
          (<["created" := VInt (completion_created response)]>
          (<["object" := VStr (completion_object response)]>
          (<["choices" := choices]>
          (<["history_metadata" := history_metadata]> ∅))))))
  | _ => raise (Exn "FormatError" "completion has no first choice message" None)
  end.

Definition error_response (message : string) (status : Z) : Response :=
  {| resp_body := jsonify {[ "error" := VStr message ]}; resp_status := status |}.

Definition conversation_internal (request_body : val) (request_headers : gmap string string)
  : M Response :=
  try_except
    (do sent <- send_chat_request request_body request_headers;
     do history_metadata <- dict_get request_body "history_metadata" (alloc (ODict ∅));
     do reply <- format_non_streaming_response sent.1 history_metadata sent.2;
     ret {| resp_body := jsonify reply; resp_status := 200 |})
    (λ ex,
       match exn_status_code ex with
       | Some status_code => ret (error_response (exn_str ex) status_code)
       | None => ret (error_response (exn_str ex) 500)
       end).

(** [SYSTEM_PROMPTS.get(context, app_settings.azure_openai.system_message)] *)
Definition select_prompt (context : string) : option string :=
  match SYSTEM_PROMPTS !! context with
  | Some p => Some p
  | None => system_message (azure_openai app_settings)
  end.

Definition conversation (context : string) (request : Request) : M Response :=
  if negb (is_json request) then ret (error_response "request must be JSON" 415)
  else
    do request_json <- get_json request;
    let system_prompt := select_prompt context in
    if falsy system_prompt
    then ret (error_response ("Unsupported context '" ++ context ++ "'") 400)
    else
      do messages <- dict_get request_json "messages" (alloc (OList []));
      list_insert messages 0
        (alloc (ODict {[ "role" := VStr "system";
                         "content" := str_val system_prompt ]}));;
      dict_setitem request_json "messages" messages;;
      conversation_internal request_json (headers request).

(** *** Names for what the route builds *)

(** The keyword arguments around a message list. *)
Definition model_args_for (messages : val) : gmap string val :=
  <["messages" := messages]>
  (<["temperature" := temperature (azure_openai app_settings)]>
  (<["max_tokens" := max_tokens (azure_openai app_settings)]>
  (<["top_p" := top_p (azure_openai app_settings)]>
  (<["stop" := stop_sequence (azure_openai app_settings)]>
  (<["stream" := stream (azure_openai app_settings)]>
  (<["model" := model (azure_openai app_settings)]> ∅)))))).

(** The client configuration read from the settings. *)
Definition openai_config : OpenAIConfig :=
  {| api_version := preview_api_version (azure_openai app_settings);
     api_key := key (azure_openai app_settings);
     azure_endpoint :=
       str_or (endpoint (azure_openai app_settings))
              ("https://" ++ fmt (resource (azure_openai app_settings))
                          ++ ".openai.azure.com/") |}.

(** The error reply of [conversation_internal] for an exception. *)
Definition error_reply (ex : exn) : Response :=
  error_response (exn_str ex) (default 500%Z (exn_status_code ex)).

(** *** Running the primitives *)

Lemma bind_Ret {A B} (m : M A) (k : A → M B) st a st' :
  m st = (Ret a, st') → bind m k st = k a st'.
Proof. unfold bind. by intros ->. Qed.

Lemma bind_Raise {A B} (m : M A) (k : A → M B) st e st' :
  m st = (Raise e, st') → bind m k st = (Raise e, st').
Proof. unfold bind. by intros ->. Qed.

Lemma fresh_lookup (h : gmap positive obj) : h !! fresh (dom h) = None.
Proof. apply not_elem_of_dom, is_fresh. Qed.

Lemma fresh_ne (h : gmap positive obj) l o : h !! l = Some o → l ≠ fresh (dom h).
Proof. intros Hl ->. rewrite fresh_lookup in Hl. done. Qed.

Lemma alloc_run o h c :
  alloc o (State h c) = (Ret (VRef (fresh (dom h))), State (<[fresh (dom h) := o]> h) c).
Proof. reflexivity. Qed.

Lemma dict_get_found l k dflt h c d x :
  h !! l = Some (ODict d) → d !! k = Some x →
  dict_get (VRef l) k dflt (State h c) = (Ret x, State h c).
Proof.
  intros Hl Hk. unfold dict_get, bind, attr_get. simpl. rewrite Hl, Hk. done.
Qed.

Lemma dict_get_missing l k dflt h c d :
  h !! l = Some (ODict d) → d !! k = None →
  dict_get (VRef l) k dflt (State h c) = dflt (State h c).
Proof.
  intros Hl Hk. unfold dict_get, bind, attr_get. simpl. rewrite Hl, Hk. done.
Qed.

Lemma dict_get_raises v k dflt h c :
  ¬ is_dict h v →
  dict_get v k dflt (State h c) = (Raise (AttributeError h v "get"), State h c).
Proof.
  intros Hv. unfold dict_get, bind, attr_get. simpl.
  destruct (deref h v) as [[d|xs]|] eqn:E; try done.
  destruct Hv. by exists d.
Qed.

Lemma dict_setitem_run l k x h c d :
  h !! l = Some (ODict d) →
  dict_setitem (VRef l) k x (State h c)
  = (Ret tt, State (<[l := ODict (<[k := x]> d)]> h) c).
Proof. intros Hl. unfold dict_setitem. simpl. by rewrite Hl. Qed.

Lemma list_insert_run l o h c xs :
  h !! l = Some (OList xs) →
  list_insert (VRef l) 0 (alloc o) (State h c)
  = (Ret tt, State (<[l := OList (VRef (fresh (dom h)) :: xs)]> (<[fresh (dom h) := o]> h)) c).
Proof.
  intros Hl. unfold list_insert.
  rewrite (bind_Ret _ _ _ l (State h c)) by (unfold attr_insert; simpl; by rewrite Hl).
  rewrite (bind_Ret _ _ _ _ _ (alloc_run o h c)). simpl.
  rewrite lookup_insert_ne by (symmetry; by eapply fresh_ne).
  rewrite Hl. unfold list_insert_at. by rewrite take_0, drop_0.
Qed.

Lemma list_insert_raises v i arg h c :
  (∀ xs, deref h v ≠ Some (OList xs)) →
  list_insert v i arg (State h c) = (Raise (AttributeError h v "insert"), State h c).
Proof.
  intros Hv. unfold list_insert. apply bind_Raise. unfold attr_insert. simpl.
  destruct v; try done. simpl in Hv.
  destruct (h !! l) as [[d|xs]|] eqn:E; try done. by destruct (Hv xs).
Qed.

Lemma iterate_list l h c xs :
  h !! l = Some (OList xs) → iterate (VRef l) (State h c) = (Ret xs, State h c).
Proof. intros Hl. unfold iterate. simpl. by rewrite Hl. Qed.

Lemma classic_dict h v : is_dict h v ∨ ¬ is_dict h v.
Proof.
  unfold is_dict. destruct (deref h v) as [[d|xs]|]; [left; by exists d| |];
    right; intros [d Hd]; done.
Qed.

Lemma role_of_dict h l d :
  h !! l = Some (ODict d) → role_of h (VRef l) = default VNone (d !! "role").
Proof. intros Hl. unfold role_of. simpl. by rewrite Hl. Qed.

Lemma not_tool_run v h c :
  is_dict h v →
  not_tool v (State h c) = (Ret (bool_decide (role_of h v ≠ VStr "tool")), State h c).
Proof.
  intros [d Hd]. destruct v; try done. simpl in Hd.
  unfold not_tool. rewrite (role_of_dict _ _ _ Hd).
  destruct (d !! "role") as [r|] eqn:Hr.
  - by rewrite (bind_Ret _ _ _ _ _ (dict_get_found _ _ _ _ _ _ _ Hd Hr)).
  - rewrite (bind_Ret _ _ _ VNone (State h c)); [done|].
    by rewrite (dict_get_missing _ _ _ _ _ _ Hd Hr).
Qed.

Lemma not_tool_raises v h c :
  ¬ is_dict h v →
  not_tool v (State h c) = (Raise (AttributeError h v "get"), State h c).
Proof. intros Hv. unfold not_tool. apply bind_Raise. by apply dict_get_raises. Qed.

(** The comprehension over a list of dictionaries is the filter. *)
Lemma comprehension_run xs h c :
  Forall (is_dict h) xs →
  comprehension not_tool xs (State h c)
  = (Ret (filter (λ m, role_of h m ≠ VStr "tool") xs), State h c).
Proof.
  induction 1 as [|x xs Hx _ IH]; [done|]. simpl.
  rewrite (bind_Ret _ _ _ _ _ (not_tool_run _ _ c Hx)).
  rewrite (bind_Ret _ _ _ _ _ IH). unfold ret. rewrite filter_cons.
  destruct (decide (role_of h x ≠ VStr "tool")) as [Hr|Hr].
  - by rewrite bool_decide_true.
  - by rewrite bool_decide_false.
Qed.

(** It stops at the first element that is not a dictionary. *)
Lemma comprehension_raises xs h c :
  ¬ Forall (is_dict h) xs →
  ∃ v, v ∈ xs ∧
       comprehension not_tool xs (State h c) = (Raise (AttributeError h v "get"), State h c).
Proof.
  induction xs as [|x xs IH]; intros Hn; [by destruct Hn|].
  destruct (classic_dict h x) as [Hx|Hx].
  - destruct IH as (v & Hv & E).
    { intros Hall. apply Hn. by constructor. }
    exists v. split; [by right|]. simpl.
    rewrite (bind_Ret _ _ _ _ _ (not_tool_run _ _ c Hx)).
    by rewrite (bind_Raise _ _ _ _ _ E).
  - exists x. split; [by left|]. simpl.
    by rewrite (bind_Raise _ _ _ _ _ (not_tool_raises _ _ c Hx)).
Qed.

(** *** Running the route *)

Lemma prepare_model_args_run l hdrs h c d m :
  h !! l = Some (ODict d) → d !! "messages" = Some m →
  prepare_model_args (VRef l) hdrs (State h c) = (Ret (model_args_for m), State h c).
Proof.
  intros Hl Hm. unfold prepare_model_args.
  by rewrite (bind_Ret _ _ _ _ _ (dict_get_found _ _ _ _ _ _ _ Hl Hm)).
Qed.

Lemma init_openai_client_run st :
  init_openai_client st = lift (AsyncAzureOpenAI openai_config) st.
Proof.
  unfold init_openai_client, try_except, bind, openai_config. simpl.
  by destruct (AsyncAzureOpenAI _).
Qed.

(** The store at the moment of the outbound call, for a body [lr]
    whose message list holds dictionaries only. *)
Lemma send_chat_request_run lr d lm items hdrs h c :
  h !! lr = Some (ODict d) → d !! "messages" = Some (VRef lm) →
  h !! lm = Some (OList items) → Forall (is_dict h) items →
  let lf := fresh (dom h) in
  let kept := filter (λ m, role_of h m ≠ VStr "tool") items in
  let h' := <[lr := ODict (<["messages" := VRef lf]> d)]> (<[lf := OList kept]> h) in
  let args := model_args_for (VRef lf) in
  send_chat_request (VRef lr) hdrs (State h c)
  = match AsyncAzureOpenAI openai_config with
    | inl e => (Raise e, State h' c)
    | inr client =>
        match chat_completions_create client args h' with
        | inl e => (Raise e, State h' (c ++ [(args, h')]))
        | inr raw =>
            (Ret (raw_parse raw, raw_headers raw !! "apim-request-id"),
             State h' (c ++ [(args, h')]))
        end
    end.
Proof.
  intros Hr Hm Hl Hall. simpl. unfold send_chat_request.
  rewrite (bind_Ret _ _ _ _ _ (dict_get_found _ _ _ _ _ _ _ Hr Hm)).
  rewrite (bind_Ret _ _ _ _ _ (iterate_list _ _ _ _ Hl)).
  rewrite (bind_Ret _ _ _ _ _ (comprehension_run _ _ _ Hall)).
  rewrite (bind_Ret _ _ _ _ _ (alloc_run _ _ _)).
  assert (Hne : fresh (dom h) ≠ lr) by (symmetry; by eapply fresh_ne).
  erewrite bind_Ret; last first.
  { apply dict_setitem_run. rewrite lookup_insert_ne by done. exact Hr. }
  erewrite bind_Ret; last first.
  { eapply prepare_model_args_run; [apply lookup_insert_eq|apply lookup_insert_eq]. }
  unfold try_except, bind. rewrite init_openai_client_run.
  destruct (AsyncAzureOpenAI openai_config) as [e|client]; [done|]. simpl.
  unfold create. simpl.
  destruct (chat_completions_create client _ _) as [e|raw]; done.
Qed.

(** Whatever [send_chat_request] raises becomes the error reply. *)
Lemma conversation_internal_catches request_body hdrs st e st' :
  send_chat_request request_body hdrs st = (Raise e, st') →
  conversation_internal request_body hdrs st = (Ret (error_reply e), st').
Proof.
  intros E. unfold conversation_internal, try_except.
  rewrite (bind_Raise _ _ _ _ _ E). unfold error_reply.
  by destruct (exn_status_code e).
Qed.

(** *** Relations that every step respects *)

Section Respects.

Context (R : relation state) `{!PreOrder R}.

Lemma respects_ret {A} (a : A) : respects R (ret a).
Proof. intros st o st' [= <- <-]. reflexivity. Qed.

Lemma respects_raise {A} e : respects R (@raise A e).
Proof. intros st o st' [= <- <-]. reflexivity. Qed.

Lemma respects_lift {A} (r : exn + A) : respects R (lift r).
Proof. destruct r; [apply respects_raise|apply respects_ret]. Qed.

Lemma respects_bind {A B} (m : M A) (k : A → M B) :
  respects R m → (∀ a, respects R (k a)) → respects R (bind m k).
Proof.
  intros Hm Hk st o st' E. unfold bind in E.
  destruct (m st) as [[a|e] st1] eqn:E1.
  - transitivity st1; [by eapply Hm|by eapply Hk].
  - injection E as <- <-. by eapply Hm.
Qed.

Lemma respects_try_except {A} (m : M A) (h : exn → M A) :
  respects R m → (∀ e, respects R (h e)) → respects R (try_except m h).
Proof.
  intros Hm Hh st o st' E. unfold try_except in E.
  destruct (m st) as [[a|e] st1] eqn:E1.
  - injection E as <- <-. by eapply Hm.
  - transitivity st1; [by eapply Hm|by eapply Hh].
Qed.

Lemma respects_comprehension cond xs :
  (∀ x, respects R (cond x)) → respects R (comprehension cond xs).
Proof.
  intros Hc. induction xs as [|x xs IH]; simpl; [apply respects_ret|].
  apply respects_bind; [apply Hc|]. intros b.
  apply respects_bind; [apply IH|]. intros rest. apply respects_ret.
Qed.

Lemma respects_attr_get v : respects R (attr_get v).
Proof.
  intros st o st' E. unfold attr_get in E.
  destruct (deref (st_heap st) v) as [[d|xs]|]; injection E as <- <-; reflexivity.
Qed.

Lemma respects_attr_insert v : respects R (attr_insert v).
Proof.
  intros st o st' E. unfold attr_insert in E.
  destruct v; try (injection E as <- <-; reflexivity).
  destruct (deref (st_heap st) (VRef l)) as [[d|xs]|]; injection E as <- <-; reflexivity.
Qed.

Lemma respects_iterate v : respects R (iterate v).
Proof.
  intros st o st' E. unfold iterate in E.
  destruct v; try (injection E as <- <-; reflexivity).
  destruct (deref (st_heap st) (VRef l)) as [[d|xs]|]; injection E as <- <-; reflexivity.
Qed.

Lemma respects_dict_get v k dflt : respects R dflt → respects R (dict_get v k dflt).
Proof.
  intros Hd. unfold dict_get. apply respects_bind; [apply respects_attr_get|].
  intros d. destruct (d !! k); [apply respects_ret|apply Hd].
Qed.

Lemma respects_not_tool v : respects R (not_tool v).
Proof.
  unfold not_tool. apply respects_bind; [apply respects_dict_get, respects_ret|].
  intros role. apply respects_ret.
Qed.

Lemma respects_init_openai_client : respects R init_openai_client.
Proof.
  unfold init_openai_client. apply respects_try_except; [|apply respects_raise].
  apply respects_bind; [apply respects_lift|apply respects_ret].
Qed.

End Respects.

#[local] Instance frame_preorder S : PreOrder (frame S).
Proof.
  split.
  - intros st. split; [done|]. intros l d Hl. by exists d.
  - intros st1 st2 st3 [H1 D1] [H2 D2]. split.
    + intros l x Hn Hl. by apply H2, H1.
    + intros l d Hl. destruct (D1 l d Hl) as (d1 & Hl1 & K1).
      destruct (D2 l d1 Hl1) as (d2 & Hl2 & K2).
      exists d2. split; [done|]. intros k Hk. by rewrite K2, K1.
Qed.

#[local] Instance same_calls_preorder : PreOrder same_calls.
Proof.
  split; [done|]. unfold same_calls. intros st1 st2 st3 H1 H2. by rewrite H2, H1.
Qed.

Lemma frame_mono S1 S2 st st' : S1 ⊆ S2 → frame S1 st st' → frame S2 st st'.
Proof.
  intros Hs [H D]. split; [|done]. intros l x Hn. apply H. set_solver.
Qed.

Lemma respects_frame_mono {A} S1 S2 (m : M A) :
  S1 ⊆ S2 → respects (frame S1) m → respects (frame S2) m.
Proof. intros Hs Hm st o st' E. eapply frame_mono; [done|by eapply Hm]. Qed.

Lemma alloc_frame S o : respects (frame S) (alloc o).
Proof.
  intros st r st' [= <- <-]. split; simpl.
  - intros l x _ Hl. rewrite lookup_insert_ne; [done|]. symmetry. by eapply fresh_ne.
  - intros l d Hl. exists d. split; [|done].
    rewrite lookup_insert_ne; [done|]. symmetry. by eapply fresh_ne.
Qed.

Lemma alloc_same_calls o : respects same_calls (alloc o).
Proof. by intros st r st' [= <- <-]. Qed.

(** Writing into the object at [l] is allowed when [l] is in [S]; a
    list written at [l] leaves every dictionary alone. *)
Lemma write_list_frame S l xs h c :
  l ∈ S → (∀ d, h !! l ≠ Some (ODict d)) →
  frame S (State h c) (State (<[l := OList xs]> h) c).
Proof.
  intros Hin Hnd. split; simpl.
  - intros l' y Hn Hl'. rewrite lookup_insert_ne; [done|]. by intros ->.
  - intros l' d Hl'. exists d. split; [|done].
    rewrite lookup_insert_ne; [done|]. intros ->. by eapply Hnd.
Qed.

Lemma write_messages_frame S l d x h c :
  l ∈ S → h !! l = Some (ODict d) →
  frame S (State h c) (State (<[l := ODict (<["messages" := x]> d)]> h) c).
Proof.
  intros Hin Hl. split; simpl.
  - intros l' y Hn Hl'. rewrite lookup_insert_ne; [done|]. by intros ->.
  - intros l' d' Hl'. destruct (decide (l = l')) as [<-|Hne].
    + rewrite Hl in Hl'. injection Hl' as <-. eexists. split; [apply lookup_insert_eq|].
      intros k Hk. by rewrite lookup_insert_ne.
    + exists d'. split; [|done]. by rewrite lookup_insert_ne.
Qed.

Lemma list_insert_frame S v i arg :
  refs v ⊆ S → respects (frame S) arg → respects (frame S) (list_insert v i arg).
Proof.
  intros Hs Harg st o st' E. unfold list_insert, bind, attr_insert in E.
  destruct v as [| | | | |l]; try (injection E as <- <-; reflexivity).
  destruct (deref (st_heap st) (VRef l)) as [[d|xs]|];
    try (injection E as <- <-; reflexivity).
  destruct (arg st) as [[x|e] st1] eqn:E1.
  - transitivity st1; [by eapply Harg|].
    destruct st1 as [h1 c1]. simpl in E.
    destruct (h1 !! l) as [[d|ys]|] eqn:Hl; injection E as <- <-; try reflexivity.
    apply write_list_frame; [set_solver|]. intros d Hd. simpl in *. congruence.
  - injection E as <- <-. by eapply Harg.
Qed.

Lemma dict_setitem_frame S v x :
  refs v ⊆ S → respects (frame S) (dict_setitem v "messages" x).
Proof.
  intros Hs st o st' E. unfold dict_setitem in E.
  destruct v as [| | | | |l]; try (injection E as <- <-; reflexivity).
  destruct st as [h c]. simpl in E.
  destruct (h !! l) as [[d|ys]|] eqn:Hl; injection E as <- <-; try reflexivity.
  apply write_messages_frame; [set_solver|done].
Qed.

Lemma create_frame S client args : respects (frame S) (create client args).
Proof.
  intros st o st' E. unfold create in E.
  destruct (chat_completions_create client args (st_heap st)); injection E as <- <-;
    split; simpl; eauto.
Qed.

Lemma prepare_model_args_frame S request_body hdrs :
  respects (frame S) (prepare_model_args request_body hdrs).
Proof.
  unfold prepare_model_args. apply respects_bind; [apply _| |].
  - apply respects_dict_get; [apply _|apply alloc_frame].
  - intros m. apply respects_ret; apply _.
Qed.

Lemma send_chat_request_frame S request_body hdrs :
  refs request_body ⊆ S → respects (frame S) (send_chat_request request_body hdrs).
Proof.
  intros Hs. unfold send_chat_request.
  apply respects_bind; [apply _|apply respects_dict_get; [apply _|apply alloc_frame]|].
  intros messages. apply respects_bind; [apply _|apply respects_iterate; apply _|].
  intros items. apply respects_bind; [apply _| |].
  { apply respects_comprehension; [apply _|]. intros x. apply respects_not_tool; apply _. }
  intros kept. apply respects_bind; [apply _|apply alloc_frame|].
  intros filtered. apply respects_bind; [apply _|by apply dict_setitem_frame|].
  intros _. apply respects_bind; [apply _|apply prepare_model_args_frame|].
  intros model_args. apply respects_try_except; [apply _| |].
  - apply respects_bind; [apply _|apply respects_init_openai_client; apply _|].
    intros client. apply respects_bind; [apply _|apply create_frame|].
    intros raw. apply respects_ret; apply _.
  - intros e. apply respects_raise; apply _.
Qed.

Lemma format_frame S response hm id :
  respects (frame S) (format_non_streaming_response response hm id).
Proof.
  unfold format_non_streaming_response.
  destruct (completion_choices response) as [|[m|] rest];
    try (apply respects_raise; apply _).
  repeat (apply respects_bind; [apply _|apply alloc_frame|]; intros ?).
  apply respects_ret; apply _.
Qed.

Lemma conversation_internal_frame S request_body hdrs :
  refs request_body ⊆ S → respects (frame S) (conversation_internal request_body hdrs).
Proof.
  intros Hs. unfold conversation_internal. apply respects_try_except; [apply _| |].
  - apply respects_bind; [apply _|by apply send_chat_request_frame|]. intros sent.
    apply respects_bind; [apply _|apply respects_dict_get; [apply _|apply alloc_frame]|].
    intros hm. apply respects_bind; [apply _|apply format_frame|].
    intros reply. apply respects_ret; apply _.
  - intros ex. destruct (exn_status_code ex); apply respects_ret; apply _.
Qed.

(** *** The decoder *)

Lemma json_nested_ind (P : json → Prop) :
  P JNull → (∀ b, P (JBool b)) → (∀ n, P (JInt n)) → (∀ b, P (JFloat b)) →
  (∀ s, P (JStr s)) →
  (∀ js, Forall P js → P (JArr js)) →
  (∀ kvs, Forall (λ kv, P kv.2) kvs → P (JObj kvs)) →
  ∀ j, P j.
Proof.
  intros Hnull Hbool Hint Hfloat Hstr Harr Hobj. fix IH 1.
  intros [ | b | n | b | s | js | kvs];
    [apply Hnull|apply Hbool|apply Hint|apply Hfloat|apply Hstr| | ].
  - apply Harr. induction js as [|j js IHjs]; constructor; [apply IH|apply IHjs].
  - apply Hobj. induction kvs as [|[k j] kvs IHkvs]; constructor; [apply IH|apply IHkvs].
Qed.

Lemma load_arr js : load (JArr js) = bind (load_items js) (λ vs, alloc (OList vs)).
Proof. reflexivity. Qed.

Lemma load_obj kvs : load (JObj kvs) = bind (load_members kvs ∅) (λ d, alloc (ODict d)).
Proof. reflexivity. Qed.

Section LoadRespects.

Context (R : relation state) `{!PreOrder R}.
Hypothesis alloc_R : ∀ o, respects R (alloc o).

Lemma load_items_respects js :
  Forall (λ j, respects R (load j)) js → respects R (load_items js).
Proof.
  induction 1 as [|j js Hj _ IH]; simpl; [by apply respects_ret|].
  apply respects_bind; [done|done|]. intros v.
  apply respects_bind; [done|done|]. intros vs. by apply respects_ret.
Qed.

Lemma load_members_respects kvs d :
  Forall (λ kv, respects R (load kv.2)) kvs → respects R (load_members kvs d).
Proof.
  intros H. revert d. induction H as [|[k j] kvs Hj _ IH]; intros d; simpl;
    [by apply respects_ret|].
  apply respects_bind; [done|done|]. intros v. apply IH.
Qed.

Lemma load_respects j : respects R (load j).
Proof.
  induction j as [ | b | n | b | s | js IH | kvs IH] using json_nested_ind;
    try (by apply respects_ret).
  - rewrite load_arr. apply respects_bind; [done|by apply load_items_respects|].
    intros vs. apply alloc_R.
  - rewrite load_obj. apply respects_bind; [done|by apply load_members_respects|].
    intros d. apply alloc_R.
Qed.

End LoadRespects.

Lemma load_frame S j : respects (frame S) (load j).
Proof. apply load_respects; [apply _|apply alloc_frame]. Qed.

Lemma load_same_calls j : respects same_calls (load j).
Proof. apply load_respects; [apply _|apply alloc_same_calls]. Qed.

(** The decoder always returns. *)
Lemma load_items_returns js :
  Forall (λ j, ∀ st, ∃ v st', load j st = (Ret v, st')) js →
  ∀ st, ∃ vs st', load_items js st = (Ret vs, st').
Proof.
  induction 1 as [|j js Hj _ IH]; intros st; simpl; [by eexists _, _|].
  destruct (Hj st) as (v & st1 & E1). rewrite (bind_Ret _ _ _ _ _ E1).
  destruct (IH st1) as (vs & st2 & E2). rewrite (bind_Ret _ _ _ _ _ E2). by eexists _, _.
Qed.

Lemma load_members_returns kvs :
  Forall (λ kv, ∀ st, ∃ v st', load kv.2 st = (Ret v, st')) kvs →
  ∀ d st, ∃ d' st', load_members kvs d st = (Ret d', st').
Proof.
  induction 1 as [|[k j] kvs Hj _ IH]; intros d st; simpl; [by eexists _, _|].
  destruct (Hj st) as (v & st1 & E1). rewrite (bind_Ret _ _ _ _ _ E1). apply IH.
Qed.

Lemma load_returns j st : ∃ v st', load j st = (Ret v, st').
Proof.
  revert st.
  induction j as [ | b | n | b | s | js IH | kvs IH] using json_nested_ind; intros st;
    try (by eexists _, _).
  - rewrite load_arr. destruct (load_items_returns js IH st) as (vs & st1 & E).
    rewrite (bind_Ret _ _ _ _ _ E). by eexists _, _.
  - rewrite load_obj. destruct (load_members_returns kvs IH ∅ st) as (d & st1 & E).
    rewrite (bind_Ret _ _ _ _ _ E). by eexists _, _.
Qed.

(** A reference returned by the decoder is new. *)
Lemma load_result_fresh j st v st' l :
  load j st = (Ret v, st') → v = VRef l → st_heap st !! l = None.
Proof.
  assert (Hnew : ∀ {A} (m : M A) (mk : A → obj) v' st'',
            respects (frame ∅) m →
            bind m (λ a, alloc (mk a)) st = (Ret v', st'') → v' = VRef l →
            st_heap st !! l = None).
  { intros A m mk v' st'' Hm E ->. unfold bind in E.
    destruct (m st) as [[a|e] st1] eqn:E1; [|done].
    injection E as El _. destruct (st_heap st !! l) as [x|] eqn:Hl; [|done].
    apply (Hm _ _ _ E1) in Hl; [|set_solver]. rewrite <- El in Hl.
    by rewrite fresh_lookup in Hl. }
  destruct j as [ | b | n | b | s | js | kvs]; try (by intros [= <- <-]).
  - rewrite load_arr. apply Hnew.
    apply load_items_respects; [apply _|]. apply Forall_forall. intros j _. apply load_frame.
  - rewrite load_obj. apply Hnew.
    apply load_members_respects; [apply _|]. apply Forall_forall. intros j _. apply load_frame.
Qed.

(** So is every reference held by the members of a decoded object. *)
Lemma load_members_fresh (h0 : gmap positive obj) kvs : ∀ d st d' st',
  (∀ l x, h0 !! l = Some x → st_heap st !! l = Some x) →
  (∀ k l, d !! k = Some (VRef l) → h0 !! l = None) →
  load_members kvs d st = (Ret d', st') →
  ∀ k l, d' !! k = Some (VRef l) → h0 !! l = None.
Proof.
  induction kvs as [|[k j] kvs IH]; intros d st d' st' Hsub Hd E; simpl in E.
  - by injection E as <- <-.
  - unfold bind in E. destruct (load j st) as [[v|e] st1] eqn:E1; [|done].
    eapply IH; [| |exact E].
    + intros l x Hl. apply (load_frame ∅ _ _ _ _ E1); [set_solver|by apply Hsub].
    + intros k' l Hk'. destruct (decide (k = k')) as [<-|Hne].
      * rewrite lookup_insert_eq in Hk'. injection Hk' as ->.
        destruct (h0 !! l) as [x|] eqn:Hl; [|done].
        apply Hsub in Hl. by rewrite (load_result_fresh _ _ _ _ _ E1 eq_refl) in Hl.
      * rewrite lookup_insert_ne in Hk' by done. by eapply Hd.
Qed.

Lemma load_fields_fresh j st l st' d k l' :
  load j st = (Ret (VRef l), st') → st_heap st' !! l = Some (ODict d) →
  d !! k = Some (VRef l') → st_heap st !! l' = None.
Proof.
  destruct j as [ | b | n | b | s | js | kvs]; try done.
  - rewrite load_arr. unfold bind. destruct (load_items js st) as [[vs|e] st1]; [|done].
    intros [= -> <-]. simpl. by rewrite lookup_insert_eq.
  - rewrite load_obj. unfold bind.
    destruct (load_members kvs ∅ st) as [[d0|e] st1] eqn:E1; [|done].
    intros [= -> <-]. simpl. rewrite lookup_insert_eq. intros [= ->].
    eapply load_members_fresh; [| |exact E1]; [done|]. intros k0 l0. by rewrite lookup_empty.
Qed.

(** *** The route, step by step *)

(** The two statements after [messages] has been read: the system
    message is built, put in front of the list in place, and the list is
    stored back under [messages]. *)
Lemma insert_system_message lr lm d msgs o h c (k : M Response) :
  h !! lr = Some (ODict d) → h !! lm = Some (OList msgs) →
  bind (list_insert (VRef lm) 0 (alloc o))
       (λ _, bind (dict_setitem (VRef lr) "messages" (VRef lm)) (λ _, k)) (State h c)
  = k (State (<[lr := ODict (<["messages" := VRef lm]> d)]>
             (<[lm := OList (VRef (fresh (dom h)) :: msgs)]>
             (<[fresh (dom h) := o]> h))) c).
Proof.
  intros Hr Hl.
  rewrite (bind_Ret _ _ _ _ _ (list_insert_run _ o _ c _ Hl)).
  erewrite bind_Ret; [done|]. apply dict_setitem_run.
  assert (lr ≠ lm) by (intros ->; congruence).
  rewrite lookup_insert_ne by done.
  rewrite lookup_insert_ne by (symmetry; by eapply fresh_ne). done.
Qed.

Lemma normalized_frame lr lm lsys d x (h1 h2 : gmap positive obj) c1 c2 :
  h1 !! lr = Some (ODict d) → (∀ dm, h1 !! lm ≠ Some (ODict dm)) → h1 !! lsys = None →
  h2 !! lr = Some (ODict (<["messages" := x]> d)) →
  (∀ l, l ≠ lr → l ≠ lm → l ≠ lsys → h2 !! l = h1 !! l) →
  frame {[lr; lm]} (State h1 c1) (State h2 c2).
Proof.
  intros Hr Hm Hs Hr2 Hother. split; simpl.
  - intros l y Hn Hl. rewrite Hother; [done|set_solver|set_solver|congruence].
  - intros l dm Hl. destruct (decide (l = lr)) as [->|Hne].
    + rewrite Hr in Hl. injection Hl as <-. eexists. split; [done|].
      intros k Hk. by rewrite lookup_insert_ne.
    + exists dm. split; [|done]. rewrite Hother; [done|done| |congruence].
      intros ->. by eapply Hm.
Qed.

Lemma conversation_normalizes context request st lr h1 c1 d msgs prompt :
  is_json request = true →
  get_json request st = (Ret (VRef lr), State h1 c1) →
  h1 !! lr = Some (ODict d) →
  original_messages h1 d = Some msgs →
  select_prompt context = Some prompt → prompt ≠ "" →
  ∃ lm lsys h2,
    conversation context request st
    = conversation_internal (VRef lr) (headers request) (State h2 c1) ∧
    h2 !! lr = Some (ODict (<["messages" := VRef lm]> d)) ∧
    h2 !! lm = Some (OList (VRef lsys :: msgs)) ∧
    h2 !! lsys = Some (system_message_dict (Some prompt)) ∧
    h1 !! lsys = None ∧
    (d !! "messages" = Some (VRef lm) ∨ h1 !! lm = None) ∧
    frame {[lr; lm]} (State h1 c1) (State h2 c1).
Proof.
  intros Hj Hget Hr Hmsgs Hp Hne. unfold conversation.
  rewrite Hj. simpl. rewrite (bind_Ret _ _ _ _ _ Hget). rewrite Hp. simpl.
  rewrite bool_decide_false by done.
  unfold original_messages in Hmsgs.
  destruct (d !! "messages") as [v|] eqn:Hm.
  - destruct v as [| | | | |lm]; try done. simpl in Hmsgs.
    destruct (h1 !! lm) as [[dm|xs]|] eqn:Hl; try done. injection Hmsgs as ->.
    rewrite (bind_Ret _ _ _ _ _ (dict_get_found _ _ _ _ c1 _ _ Hr Hm)).
    rewrite (insert_system_message lr lm d msgs _ h1 c1 _ Hr Hl).
    assert (lr ≠ lm) by (intros ->; congruence).
    assert (Hf := fresh_lookup h1).
    assert (lr ≠ fresh (dom h1)) by (by eapply fresh_ne).
    assert (lm ≠ fresh (dom h1)) by (by eapply fresh_ne).
    eexists lm, (fresh (dom h1)), _. split; [done|].
    split; [by rewrite lookup_insert_eq|].
    split; [by rewrite lookup_insert_ne, lookup_insert_eq|].
    split; [do 2 (rewrite lookup_insert_ne by done); by rewrite lookup_insert_eq|].
    split; [done|]. split; [by left|].
    eapply normalized_frame; [done| |done|by rewrite lookup_insert_eq|].
    + intros dm. by rewrite Hl.
    + intros l ? ? ?. by rewrite !lookup_insert_ne.
  - injection Hmsgs as <-.
    rewrite (bind_Ret _ _ _ (VRef (fresh (dom h1)))
               (State (<[fresh (dom h1) := OList []]> h1) c1));
      last by rewrite (dict_get_missing _ _ _ _ c1 _ Hr Hm).
    set (lm := fresh (dom h1)). set (h1' := <[lm := OList []]> h1).
    assert (Hf := fresh_lookup h1). fold lm in Hf.
    assert (lr ≠ lm) by (by eapply fresh_ne).
    assert (Hr' : h1' !! lr = Some (ODict d)) by (unfold h1'; by rewrite lookup_insert_ne).
    assert (Hl' : h1' !! lm = Some (OList [])) by (unfold h1'; by rewrite lookup_insert_eq).
    rewrite (insert_system_message lr lm d [] _ h1' c1 _ Hr' Hl').
    assert (Hf' := fresh_lookup h1').
    assert (lr ≠ fresh (dom h1')) by (by eapply fresh_ne).
    assert (lm ≠ fresh (dom h1')) by (by eapply fresh_ne).
    assert (Hs : h1 !! fresh (dom h1') = None).
    { rewrite <- (lookup_insert_ne h1 lm (fresh (dom h1')) (OList [])) by done.
      exact Hf'. }
    eexists lm, (fresh (dom h1')), _. split; [done|].
    split; [by rewrite lookup_insert_eq|].
    split; [by rewrite lookup_insert_ne, lookup_insert_eq|].
    split; [do 2 (rewrite lookup_insert_ne by done); by rewrite lookup_insert_eq|].
    split; [done|]. split; [by right|].
    eapply normalized_frame; [done| |done|by rewrite lookup_insert_eq|].
    + intros dm. by rewrite Hf.
    + intros l ? ? ?. rewrite !lookup_insert_ne by done. unfold h1'.
      by rewrite lookup_insert_ne.
Qed.

(** Dictionaries stay dictionaries, with the role they had. *)
Lemma frame_is_dict S st st' v :
  frame S st st' → is_dict (st_heap st) v → is_dict (st_heap st') v.
Proof.
  intros [_ D] [d Hd]. destruct v; try done. simpl in Hd.
  destruct (D _ _ Hd) as (d' & Hd' & _). by exists d'.
Qed.

Lemma frame_role_of S st st' v :
  frame S st st' → is_dict (st_heap st) v → role_of (st_heap st') v = role_of (st_heap st) v.
Proof.
  intros [_ D] [d Hd]. destruct v; try done. simpl in Hd.
  destruct (D _ _ Hd) as (d' & Hd' & K).
  rewrite (role_of_dict _ _ _ Hd), (role_of_dict _ _ _ Hd'). by rewrite K.
Qed.

Lemma filter_role_frame S st st' msgs :
  frame S st st' → Forall (is_dict (st_heap st)) msgs →
  filter (λ m, role_of (st_heap st') m ≠ VStr "tool") msgs
  = filter (λ m, role_of (st_heap st) m ≠ VStr "tool") msgs.
Proof.
  intros HF. induction 1 as [|m msgs Hm _ IH]; [done|].
  rewrite !filter_cons, IH, (frame_role_of _ _ _ _ HF Hm). done.
Qed.

Lemma filter_split_length (P : val → Prop) `{!∀ x, Decision (P x)} (xs : list val) :
  length (filter (λ x, ¬ P x) xs) + length (filter P xs) = length xs.
Proof.
  induction xs as [|x xs IH]; [done|]. rewrite !filter_cons.
  destruct (decide (P x)), (decide (¬ P x)); simpl; try done; lia.
Qed.

Lemma format_same_calls response hm id :
  respects same_calls (format_non_streaming_response response hm id).
Proof.
  unfold format_non_streaming_response.
  destruct (completion_choices response) as [|[m|] rest];
    try (apply respects_raise; apply _).
  repeat (apply respects_bind; [apply _|apply alloc_same_calls|]; intros ?).
  apply respects_ret; apply _.
Qed.

(** The formatter returns when the first choice has a message, and the
    reply carries the history metadata it was given. *)
Lemma format_returns response hm id m rest st :
  completion_choices response = Some m :: rest →
  ∃ reply st', format_non_streaming_response response hm id st = (Ret reply, st') ∧
               reply !! "history_metadata" = Some hm.
Proof.
  intros Hc. unfold format_non_streaming_response. rewrite Hc.
  destruct st as [h c].
  repeat (erewrite bind_Ret; [|apply alloc_run]).
  eexists _, _. split; [done|].
  do 5 (rewrite lookup_insert_ne by done). by rewrite lookup_insert_eq.
Qed.

(** After [send_chat_request], [conversation_internal] always answers,
    adding no outbound call and writing only into new objects. *)
Lemma conversation_internal_after request_body hdrs st o st1 :
  send_chat_request request_body hdrs st = (o, st1) →
  ∃ r st2, conversation_internal request_body hdrs st = (Ret r, st2) ∧
           st_calls st2 = st_calls st1 ∧
           frame ∅ st1 st2 ∧
           (∀ e, o = Raise e → r = error_reply e ∧ st2 = st1).
Proof.
  intros E. unfold conversation_internal, try_except.
  destruct o as [sent|e].
  - rewrite (bind_Ret _ _ _ _ _ E).
    match goal with |- context [match ?m st1 with _ => _ end] =>
      assert (Hc : respects same_calls m);
      [|assert (Hf : respects (frame ∅) m); [|destruct (m st1) as [[r|ex] st2] eqn:E2]]
    end.
    + apply respects_bind; [apply _| |].
      { apply respects_dict_get; [apply _|apply alloc_same_calls]. }
      intros hm. apply respects_bind; [apply _|apply format_same_calls|].
      intros reply. apply respects_ret; apply _.
    + apply respects_bind; [apply _| |].
      { apply respects_dict_get; [apply _|apply alloc_frame]. }
      intros hm. apply respects_bind; [apply _|apply format_frame|].
      intros reply. apply respects_ret; apply _.
    + eexists _, _. split; [done|]. split; [by eapply Hc|]. split; [by eapply Hf|done].
    + destruct (exn_status_code ex); eexists _, _;
        (split; [done|]); (split; [by eapply Hc|]); (split; [by eapply Hf|done]).
  - rewrite (bind_Raise _ _ _ _ _ E). exists (error_reply e), st1.
    split; [unfold error_reply; by destruct (exn_status_code e)|].
    split; [done|]. split; [reflexivity|]. by intros e' [= <-].
Qed.

(** The successful answer: status 200, and the history metadata of the
    body as it is at that moment, or a new empty dictionary. *)
Lemma conversation_internal_replies lr hdrs st response id h' c' d' m rest :
  send_chat_request (VRef lr) hdrs st = (Ret (response, id), State h' c') →
  h' !! lr = Some (ODict d') →
  completion_choices response = Some m :: rest →
  ∃ reply hm st2,
    conversation_internal (VRef lr) hdrs st
    = (Ret {| resp_body := reply; resp_status := 200 |}, st2) ∧
    reply !! "history_metadata" = Some hm ∧
    match d' !! "history_metadata" with
    | Some x => hm = x
    | None => ∃ l, hm = VRef l ∧ h' !! l = None ∧ st_heap st2 !! l = Some (ODict ∅)
    end.
Proof.
  intros E Hr Hc. unfold conversation_internal, try_except.
  rewrite (bind_Ret _ _ _ _ _ E). simpl.
  destruct (d' !! "history_metadata") as [x|] eqn:Hh.
  - rewrite (bind_Ret _ _ _ _ _ (dict_get_found _ _ _ _ c' _ _ Hr Hh)).
    destruct (format_returns response x id m rest (State h' c') Hc) as (reply & st2 & E2 & Hm).
    rewrite (bind_Ret _ _ _ _ _ E2). by eexists _, _, _.
  - rewrite (bind_Ret _ _ _ (VRef (fresh (dom h'))) (State (<[fresh (dom h') := ODict ∅]> h') c'));
      last by rewrite (dict_get_missing _ _ _ _ c' _ Hr Hh).
    destruct (format_returns response (VRef (fresh (dom h'))) id m rest
                (State (<[fresh (dom h') := ODict ∅]> h') c') Hc) as (reply & st2 & E2 & Hm).
    rewrite (bind_Ret _ _ _ _ _ E2). eexists _, _, _. split; [done|]. split; [done|].
    eexists. split; [done|]. split; [apply fresh_lookup|].
    apply (format_frame ∅ _ _ _ _ _ _ E2); [set_solver|]. simpl. by rewrite lookup_insert_eq.
Qed.

Lemma role_of_system_message h l prompt :
  h !! l = Some (system_message_dict prompt) → role_of h (VRef l) = VStr "system".
Proof. intros Hl. rewrite (role_of_dict _ _ _ Hl). by rewrite lookup_insert_eq. Qed.

(** From a well-formed body to the outbound call: the normalized store
    [h3], the filtered list at [lf], the system message at [lsys]. *)
Lemma conversation_sends context request st lr h1 c1 d msgs prompt :
  is_json request = true →
  get_json request st = (Ret (VRef lr), State h1 c1) →
  h1 !! lr = Some (ODict d) →
  original_messages h1 d = Some msgs →
  Forall (is_dict h1) msgs →
  select_prompt context = Some prompt → prompt ≠ "" →
  ∃ lm lsys lf h2 h3,
    conversation context request st
    = conversation_internal (VRef lr) (headers request) (State h2 c1) ∧
    send_chat_request (VRef lr) (headers request) (State h2 c1)
    = match AsyncAzureOpenAI openai_config with
      | inl e => (Raise e, State h3 c1)
      | inr client =>
          match chat_completions_create client (model_args_for (VRef lf)) h3 with
          | inl e => (Raise e, State h3 (c1 ++ [(model_args_for (VRef lf), h3)]))
          | inr raw =>
              (Ret (raw_parse raw, raw_headers raw !! "apim-request-id"),
               State h3 (c1 ++ [(model_args_for (VRef lf), h3)]))
          end
      end ∧
    h3 !! lr = Some (ODict (<["messages" := VRef lf]> d)) ∧
    h3 !! lf = Some (OList (VRef lsys :: filter (λ m, role_of h1 m ≠ VStr "tool") msgs)) ∧
    h3 !! lsys = Some (system_message_dict (Some prompt)) ∧
    h1 !! lsys = None ∧ h1 !! lf = None ∧
    (d !! "messages" = Some (VRef lm) ∨ h1 !! lm = None) ∧
    frame {[lr; lm]} (State h1 c1) (State h3 c1).
Proof.
  intros Hj Hget Hr Hmsgs Hall Hp Hne.
  destruct (conversation_normalizes _ _ _ _ _ _ _ _ _ Hj Hget Hr Hmsgs Hp Hne)
    as (lm & lsys & h2 & Hconv & Hr2 & Hl2 & Hs2 & Hs1 & Hlm & HF).
  assert (Hall2 : Forall (is_dict h2) (VRef lsys :: msgs)).
  { constructor; [by eexists|]. eapply Forall_impl; [exact Hall|].
    intros m Hm. by apply (frame_is_dict _ _ _ _ HF). }
  pose proof (send_chat_request_run lr _ lm _ (headers request) h2 c1 Hr2
                (lookup_insert_eq _ _ _) Hl2 Hall2) as Hsend.
  cbv zeta in Hsend. rewrite insert_insert_eq in Hsend.
  rewrite filter_cons in Hsend.
  rewrite (role_of_system_message _ _ _ Hs2) in Hsend.
  destruct (decide (VStr "system" ≠ VStr "tool")) as [_|Hn]; [|by destruct Hn].
  pose proof (filter_role_frame _ _ _ _ HF Hall) as Hfil. simpl in Hfil.
  rewrite Hfil in Hsend. clear Hfil.
  set (lf := fresh (dom h2)) in *.
  assert (Hf2 := fresh_lookup h2). fold lf in Hf2.
  assert (lr ≠ lf) by (intros ->; congruence).
  assert (lsys ≠ lf) by (intros ->; congruence).
  assert (lr ≠ lsys) by (intros ->; congruence).
  exists lm, lsys, lf, h2. eexists. split; [done|]. split; [exact Hsend|].
  split; [by rewrite lookup_insert_eq|].
  split; [by rewrite lookup_insert_ne, lookup_insert_eq|].
  split; [by do 2 (rewrite lookup_insert_ne by done)|].
  split; [done|]. split.
  { destruct (h1 !! lf) as [x|] eqn:Hx; [|done].
    destruct HF as [HF1 HF2]. destruct x as [dx|xs].
    - destruct (HF2 _ _ Hx) as (d' & Hd' & _). simpl in Hd'. congruence.
    - assert (lf ∉ ({[lr; lm]} : gset positive)) as Hnin.
      { apply not_elem_of_union. split; apply not_elem_of_singleton; [done|].
        intros ->. congruence. }
      specialize (HF1 _ _ Hnin Hx). simpl in HF1. congruence. }
  split; [done|].
  transitivity (State h2 c1); [done|].
  transitivity (State (<[lf := OList (VRef lsys
                  :: filter (λ m, role_of h1 m ≠ VStr "tool") msgs)]> h2) c1).
  - apply (alloc_frame _ _ _ _ _ (alloc_run _ h2 c1)).
  - assert (Hin : lr ∈ ({[lr; lm]} : gset positive))
      by (apply elem_of_union_l; by apply elem_of_singleton).
    assert (Hr2' : <[lf := OList (VRef lsys
                     :: filter (λ m, role_of h1 m ≠ VStr "tool") msgs)]> h2 !! lr
                   = Some (ODict (<["messages" := VRef lm]> d)))
      by (by rewrite lookup_insert_ne).
    pose proof (write_messages_frame _ _ _ (VRef lf) _ c1 Hin Hr2') as W.
    by rewrite insert_insert_eq in W.
Qed.

Lemma error_response_error message status :
  resp_body (error_response message status) !! "error" = Some (VStr message).
Proof. apply lookup_singleton_eq. Qed.

Lemma dict_get_inv v k dflt st x st' :
  dict_get v k dflt st = (Ret x, st') →
  ∃ l d, v = VRef l ∧ st_heap st !! l = Some (ODict d) ∧
         ((d !! k = Some x ∧ st' = st) ∨ (d !! k = None ∧ dflt st = (Ret x, st'))).
Proof.
  unfold dict_get, bind, attr_get. destruct v as [| | | | |l]; try done. simpl.
  destruct (st_heap st !! l) as [[d|xs]|] eqn:Hl; try done.
  intros E. exists l, d. split; [done|]. split; [done|].
  destruct (d !! k) as [y|]; [left|right; done]. by injection E as <- <-.
Qed.

Lemma get_json_frame S request : respects (frame S) (get_json request).
Proof.
  unfold get_json. destruct (body request); [apply load_frame|apply respects_raise; apply _].
Qed.

Lemma get_json_same_calls request : respects same_calls (get_json request).
Proof.
  unfold get_json.
  destruct (body request); [apply load_same_calls|apply respects_raise; apply _].
Qed.

(** What the route writes after decoding: the body, the list under
    [messages], and objects that did not exist. *)
Lemma conversation_writes context request st o st' v st1 :
  is_json request = true →
  get_json request st = (Ret v, st1) →
  conversation context request st = (o, st') →
  ∃ S : gset positive,
    frame S st1 st' ∧
    ∀ l, l ∈ S →
         v = VRef l ∨
         (∃ lr d, v = VRef lr ∧ st_heap st1 !! lr = Some (ODict d) ∧
                  d !! "messages" = Some (VRef l)) ∨
         st_heap st1 !! l = None.
Proof.
  intros Hj Hget E. unfold conversation in E. rewrite Hj in E. simpl in E.
  rewrite (bind_Ret _ _ _ _ _ Hget) in E.
  destruct (falsy (select_prompt context)).
  { injection E as <- <-. exists ∅. split; [reflexivity|set_solver]. }
  unfold bind at 1 in E.
  destruct (dict_get v "messages" (alloc (OList [])) st1) as [[x|e] st2] eqn:Eg.
  - exists (refs v ∪ refs x). split.
    + transitivity st2.
      * eapply frame_mono; [apply empty_subseteq|].
        eapply (respects_dict_get (frame ∅)); [apply alloc_frame|exact Eg].
      * revert E. apply respects_bind; [apply _| |].
        { apply list_insert_frame; [apply union_subseteq_r|apply alloc_frame]. }
        intros _. apply respects_bind; [apply _| |].
        { apply dict_setitem_frame, union_subseteq_l. }
        intros _. apply conversation_internal_frame, union_subseteq_l.
    + intros l [Hl|Hl]%elem_of_union.
      * left. destruct v; simpl in Hl; try (by apply not_elem_of_empty in Hl).
        apply elem_of_singleton in Hl. by subst.
      * destruct x as [| | | | |lx]; simpl in Hl; try (by apply not_elem_of_empty in Hl).
        apply elem_of_singleton in Hl. subst lx.
        destruct (dict_get_inv _ _ _ _ _ _ Eg) as (lr & d & -> & Hr & [[Hm _]|[_ Ha]]).
        -- right. left. by exists lr, d.
        -- right. right. injection Ha as <- _. apply fresh_lookup.
  - injection E as <- <-. exists ∅. split; [|set_solver].
    eapply (respects_dict_get (frame ∅)); [apply alloc_frame|exact Eg].
Qed.

(** *** Exceptions raised before [conversation_internal] is entered *)

Lemma conversation_undecodable_raises context request st :
  is_json request = true → body request = None →
  conversation context request st
  = (Raise (Exn "BadRequest" "400 Bad Request: Failed to decode JSON object" None), st).
Proof.
  intros Hj Hb. unfold conversation. rewrite Hj. simpl.
  apply bind_Raise. unfold get_json. by rewrite Hb.
Qed.

Lemma conversation_non_object_raises context request st v h1 c1 :
  is_json request = true →
  get_json request st = (Ret v, State h1 c1) →
  falsy (select_prompt context) = false →
  ¬ is_dict h1 v →
  conversation context request st = (Raise (AttributeError h1 v "get"), State h1 c1).
Proof.
  intros Hj Hget Hp Hv. unfold conversation. rewrite Hj. simpl.
  rewrite (bind_Ret _ _ _ _ _ Hget). rewrite Hp.
  apply bind_Raise. by apply dict_get_raises.
Qed.

Lemma conversation_non_list_raises context request st lr h1 c1 d x :
  is_json request = true →
  get_json request st = (Ret (VRef lr), State h1 c1) →
  falsy (select_prompt context) = false →
  h1 !! lr = Some (ODict d) → d !! "messages" = Some x →
  (∀ xs, deref h1 x ≠ Some (OList xs)) →
  conversation context request st = (Raise (AttributeError h1 x "insert"), State h1 c1).
Proof.
  intros Hj Hget Hp Hr Hm Hx. unfold conversation. rewrite Hj. simpl.
  rewrite (bind_Ret _ _ _ _ _ Hget). rewrite Hp.
  rewrite (bind_Ret _ _ _ _ _ (dict_get_found _ _ _ _ c1 _ _ Hr Hm)).
  apply bind_Raise. by apply list_insert_raises.
Qed.

(** A well-formed request is forwarded: the system message, then the
    messages whose role is not "tool", in order. *)
Lemma conversation_forwards context request st lr h1 c1 d msgs prompt client :
  is_json request = true →
  get_json request st = (Ret (VRef lr), State h1 c1) →
  h1 !! lr = Some (ODict d) →
  original_messages h1 d = Some msgs →
  Forall (is_dict h1) msgs →
  select_prompt context = Some prompt → prompt ≠ "" →
  AsyncAzureOpenAI openai_config = inr client →
  ∃ r st' args lf lsys h,
    conversation context request st = (Ret r, st') ∧
    st_calls st' = (c1 ++ [(args, h)])%list ∧
    args !! "messages" = Some (VRef lf) ∧
    h !! lf = Some (OList (VRef lsys :: filter (λ m, role_of h1 m ≠ VStr "tool") msgs)) ∧
    h !! lsys = Some (ODict {[ "role" := VStr "system"; "content" := VStr prompt ]}) ∧
    h1 !! lsys = None ∧
    Forall (λ m, role_of h m ≠ VStr "tool")
           (VRef lsys :: filter (λ m, role_of h1 m ≠ VStr "tool") msgs) ∧
    length (VRef lsys :: filter (λ m, role_of h1 m ≠ VStr "tool") msgs)
    + length (filter (λ m, role_of h1 m = VStr "tool") msgs)
    = length msgs + 1.
Proof.
  intros Hj Hget Hr Hmsgs Hall Hp Hne Hclient.
  destruct (conversation_sends _ _ _ _ _ _ _ _ _ Hj Hget Hr Hmsgs Hall Hp Hne)
    as (lm & lsys & lf & h2 & h3 & Hconv & Hsend & Hr3 & Hf3 & Hs3 & Hs1 & Hf1 & _ & HF).
  rewrite Hclient in Hsend.
  assert (∃ o, send_chat_request (VRef lr) (headers request) (State h2 c1)
               = (o, State h3 (c1 ++ [(model_args_for (VRef lf), h3)]))) as [o Ho].
  { destruct (chat_completions_create client _ h3); by eexists. }
  destruct (conversation_internal_after _ _ _ _ _ Ho) as (r & st2 & E & Hcalls & _).
  exists r, st2, (model_args_for (VRef lf)), lf, lsys, h3.
  split; [by rewrite Hconv|]. split; [done|].
  split; [apply lookup_insert_eq|]. split; [done|]. split; [done|]. split; [done|].
  split.
  - constructor.
    + by rewrite (role_of_system_message _ _ _ Hs3).
    + apply Forall_forall. intros m [Hrole Hin]%list_elem_of_filter.
      rewrite Forall_forall in Hall.
      pose proof (frame_role_of _ _ _ _ HF (Hall _ Hin)) as Hsame. simpl in Hsame.
      by rewrite Hsame.
  - simpl. pose proof (filter_split_length (λ m, role_of h1 m = VStr "tool") msgs). lia.
Qed.

Lemma Forall_is_dict_dec h xs : Forall (is_dict h) xs ∨ ¬ Forall (is_dict h) xs.
Proof.
  induction xs as [|x xs [IH|IH]].
  - left. constructor.
  - destruct (classic_dict h x) as [Hx|Hx].
    + left. by constructor.
    + right. intros Hall. apply Hx. by apply Forall_inv in Hall.
  - right. intros Hall. apply IH. by apply Forall_inv_tail in Hall.
Qed.

(** A list with an element that is not a dictionary stops
    [send_chat_request] before anything is written or sent. *)
Lemma send_chat_request_bad_item lr d lm items hdrs h c :
  h !! lr = Some (ODict d) → d !! "messages" = Some (VRef lm) →
  h !! lm = Some (OList items) → ¬ Forall (is_dict h) items →
  ∃ e, send_chat_request (VRef lr) hdrs (State h c) = (Raise e, State h c).
Proof.
  intros Hr Hm Hl Hbad. unfold send_chat_request.
  rewrite (bind_Ret _ _ _ _ _ (dict_get_found _ _ _ _ _ _ _ Hr Hm)).
  rewrite (bind_Ret _ _ _ _ _ (iterate_list _ _ _ _ Hl)).
  destruct (comprehension_raises _ _ c Hbad) as (v & _ & E).
  rewrite (bind_Raise _ _ _ _ _ E). by eexists.
Qed.

(** Whatever the request, at most one call goes out, and when one does
    its list is the system message followed by the original messages
    whose role, read at that moment, is not "tool". *)
Lemma conversation_forwards_only context request st o st' :
  conversation context request st = (o, st') →
  st_calls st' = st_calls st ∨
  ∃ lr h1 d msgs prompt args lf lsys h,
    get_json request st = (Ret (VRef lr), State h1 (st_calls st)) ∧
    h1 !! lr = Some (ODict d) ∧
    original_messages h1 d = Some msgs ∧
    select_prompt context = Some prompt ∧
    st_calls st' = (st_calls st ++ [(args, h)])%list ∧
    args !! "messages" = Some (VRef lf) ∧
    h !! lf = Some (OList (VRef lsys :: filter (λ m, role_of h m ≠ VStr "tool") msgs)) ∧
    h !! lsys = Some (ODict {[ "role" := VStr "system"; "content" := VStr prompt ]}) ∧
    length (VRef lsys :: filter (λ m, role_of h m ≠ VStr "tool") msgs)
    + length (filter (λ m, role_of h m = VStr "tool") msgs)
    = length msgs + 1.
Proof.
  intros E.
  destruct (is_json request) eqn:Hj; last first.
  { left. unfold conversation in E. rewrite Hj in E. by injection E as _ <-. }
  destruct (get_json request st) as [[v|e] [h1 c1]] eqn:Hget; last first.
  { left. unfold conversation in E. rewrite Hj in E. simpl in E.
    rewrite (bind_Raise _ _ _ _ _ Hget) in E. injection E as _ <-.
    exact (get_json_same_calls _ _ _ _ Hget). }
  assert (Hc1 : c1 = st_calls st) by exact (get_json_same_calls _ _ _ _ Hget).
  subst c1.
  destruct (falsy (select_prompt context)) eqn:Hfal.
  { left. unfold conversation in E. rewrite Hj in E. simpl in E.
    rewrite (bind_Ret _ _ _ _ _ Hget), Hfal in E. by injection E as _ <-. }
  destruct (select_prompt context) as [prompt|] eqn:Hp; [|done].
  assert (Hne : prompt ≠ "") by (by apply bool_decide_eq_false in Hfal).
  assert (Hfal' : falsy (select_prompt context) = false) by (by rewrite Hp).
  destruct (classic_dict h1 v) as [[d Hd]|Hnd]; last first.
  { left. rewrite (conversation_non_object_raises _ _ _ _ _ _ Hj Hget Hfal' Hnd) in E.
    by injection E as _ <-. }
  destruct v as [| | | | |lr]; try done. simpl in Hd.
  destruct (original_messages h1 d) as [msgs|] eqn:Hmsgs; last first.
  { left. unfold original_messages in Hmsgs.
    destruct (d !! "messages") as [x|] eqn:Hm; [|done].
    rewrite (conversation_non_list_raises _ _ _ _ _ _ _ x Hj Hget Hfal' Hd Hm) in E.
    - by injection E as _ <-.
    - intros xs Hx. by rewrite Hx in Hmsgs. }
  destruct (conversation_normalizes _ _ _ _ _ _ _ _ _ Hj Hget Hd Hmsgs Hp Hne)
    as (lm & lsys & h2 & Hconv & Hr2 & Hl2 & Hs2 & _).
  rewrite Hconv in E.
  destruct (Forall_is_dict_dec h2 (VRef lsys :: msgs)) as [Hall2|Hbad]; last first.
  { left.
    destruct (send_chat_request_bad_item _ _ _ _ (headers request) _ (st_calls st)
                Hr2 (lookup_insert_eq _ _ _) Hl2 Hbad) as (e & Hsend).
    destruct (conversation_internal_after _ _ _ _ _ Hsend) as (r & st2 & E2 & Hcalls & _).
    rewrite E2 in E. by injection E as _ <-. }
  pose proof (send_chat_request_run lr _ lm _ (headers request) h2 (st_calls st) Hr2
                (lookup_insert_eq _ _ _) Hl2 Hall2) as Hsend.
  cbv zeta in Hsend. rewrite insert_insert_eq, filter_cons in Hsend.
  rewrite (role_of_system_message _ _ _ Hs2) in Hsend.
  destruct (decide (VStr "system" ≠ VStr "tool")) as [_|Hn]; [|by destruct Hn].
  set (lf := fresh (dom h2)) in *.
  set (kept := filter (λ m, role_of h2 m ≠ VStr "tool") msgs) in *.
  set (h3 := <[lr := ODict (<["messages" := VRef lf]> d)]>
             (<[lf := OList (VRef lsys :: kept)]> h2)) in *.
  destruct (AsyncAzureOpenAI openai_config) as [e|client].
  { left. destruct (conversation_internal_after _ _ _ _ _ Hsend)
      as (r & st2 & E2 & Hcalls & _).
    rewrite E2 in E. by injection E as _ <-. }
  right.
  assert (∃ o1, send_chat_request (VRef lr) (headers request) (State h2 (st_calls st))
                = (o1, State h3 (st_calls st ++ [(model_args_for (VRef lf), h3)])))
    as [o1 Ho].
  { destruct (chat_completions_create client _ h3); by eexists. }
  destruct (conversation_internal_after _ _ _ _ _ Ho) as (r & st2 & E2 & Hcalls & _).
  rewrite E2 in E. injection E as _ <-.
  assert (HF : frame {[lr]} (State h2 (st_calls st))
                 (State h3 (st_calls st ++ [(model_args_for (VRef lf), h3)]))).
  { eapply (send_chat_request_frame {[lr]} (VRef lr)); [simpl; reflexivity|exact Ho]. }
  assert (Hall : Forall (is_dict h2) msgs) by (by apply Forall_inv_tail in Hall2).
  pose proof (filter_role_frame _ _ _ _ HF Hall) as Hfil. simpl in Hfil.
  assert (Hf2 := fresh_lookup h2). fold lf in Hf2.
  assert (lr ≠ lf) by (intros ->; congruence).
  assert (lsys ≠ lf) by (intros ->; congruence).
  assert (lr ≠ lsys).
  { intros ->. rewrite Hs2 in Hr2. unfold system_message_dict in Hr2.
    injection Hr2 as Hd2.
    apply (f_equal (λ m : gmap string val, m !! "messages")) in Hd2.
    rewrite lookup_insert_eq, lookup_insert_ne in Hd2 by done.
    by rewrite lookup_singleton_ne in Hd2. }
  exists lr, h1, d, msgs, prompt, (model_args_for (VRef lf)), lf, lsys, h3.
  split; [done|]. split; [done|]. split; [done|]. split; [done|].
  split; [done|]. split; [apply lookup_insert_eq|].
  split; [rewrite Hfil; unfold h3; by rewrite lookup_insert_ne, lookup_insert_eq|].
  split; [unfold h3; by do 2 (rewrite lookup_insert_ne by done)|].
  simpl. pose proof (filter_split_length (λ m, role_of h3 m = VStr "tool") msgs). lia.
Qed.

(** ** The claims *)

(** C8, amended: a request that does not declare a JSON payload
    ([request.is_json] is false), whatever its body holds, is answered
    with status 415 and a body with an [error] field; the body is not
    decoded, no prompt is selected, the store is left exactly as it was
    and no call goes out to the model. *)
Theorem not_json_is_415 context request st :
  is_json request = false →
  ∃ r, conversation context request st = (Ret r, st) ∧
       resp_status r = 415%Z ∧
       resp_body r !! "error" = Some (VStr "request must be JSON").
Proof.
  intros Hj. unfold conversation. rewrite Hj. simpl.
  eexists. split; [done|]. split; [done|]. apply error_response_error.
Qed.

(** C2: the prompt for "it" is the IT-assistant text, the prompt for
    "legal" is the legal-assistant text, any other key gets the
    configured default, and when the key is unmapped and the default is
    missing or empty the decoded request is answered with status 400 and
    the error "Unsupported context". *)
Theorem prompt_selection :
  select_prompt "it" = Some IT_PROMPT ∧
  select_prompt "legal" = Some LEGAL_PROMPT ∧
  (∀ context, context ≠ "it" → context ≠ "legal" →
     select_prompt context = system_message (azure_openai app_settings)) ∧
  (∀ context request st v st1,
     is_json request = true →
     get_json request st = (Ret v, st1) →
     SYSTEM_PROMPTS !! context = None →
     falsy (system_message (azure_openai app_settings)) = true →
     conversation context request st
     = (Ret (error_response ("Unsupported context '" ++ context ++ "'") 400), st1)).
Proof.
  split; [done|]. split; [done|]. split.
  - intros context H1 H2. unfold select_prompt, SYSTEM_PROMPTS.
    rewrite lookup_insert_ne by done. rewrite lookup_singleton_ne by done. done.
  - intros context request st v st1 Hj Hget Hnone Hfalsy. unfold conversation.
    rewrite Hj. simpl. rewrite (bind_Ret _ _ _ _ _ Hget).
    unfold select_prompt. rewrite Hnone. by rewrite Hfalsy.
Qed.

(** C7: when the construction of the history store's client fails, the
    hook leaves the readiness signal as it was (unset at startup), stores
    [None] as the client, and raises the same exception again, so the
    startup is aborted and the process does not serve. *)
Theorem history_store_failure_aborts e app :
  init_cosmosdb_client = inl e →
  init app = (inl e, {| cosmos_conversation_client := Some None;
                        cosmos_db_ready := cosmos_db_ready app |}) ∧
  startup create_app = (Aborted e, {| cosmos_conversation_client := Some None;
                                      cosmos_db_ready := false |}).
Proof. intros E. unfold startup, init. rewrite E. done. Qed.


(** C1: whatever the request, at most one call goes out to the model,
    and the [messages] argument of a call that goes out is the list made
    of the system message for the selected prompt, with role "system",
    followed by the original messages whose role is not "tool", in their
    original order: with N tool messages in the original it has N fewer
    elements than the original, plus one.  For a decoded body whose
    messages are objects, with a usable prompt and a client, the call
    does go out, and no message of its list has role "tool". *)
Theorem forwarded_messages context request st :
  (∀ o st',
     conversation context request st = (o, st') →
     st_calls st' = st_calls st ∨
     ∃ lr h1 d msgs prompt args lf lsys h,
       get_json request st = (Ret (VRef lr), State h1 (st_calls st)) ∧
       h1 !! lr = Some (ODict d) ∧
       original_messages h1 d = Some msgs ∧
       select_prompt context = Some prompt ∧
       st_calls st' = (st_calls st ++ [(args, h)])%list ∧
       args !! "messages" = Some (VRef lf) ∧
       h !! lf = Some (OList (VRef lsys :: filter (λ m, role_of h m ≠ VStr "tool") msgs)) ∧
       h !! lsys = Some (ODict {[ "role" := VStr "system"; "content" := VStr prompt ]}) ∧
       length (VRef lsys :: filter (λ m, role_of h m ≠ VStr "tool") msgs)
       + length (filter (λ m, role_of h m = VStr "tool") msgs)
       = length msgs + 1) ∧
  (∀ lr h1 c1 d msgs prompt client,
     is_json request = true →
     get_json request st = (Ret (VRef lr), State h1 c1) →
     h1 !! lr = Some (ODict d) →
     original_messages h1 d = Some msgs →
     Forall (is_dict h1) msgs →
     select_prompt context = Some prompt → prompt ≠ "" →
     AsyncAzureOpenAI openai_config = inr client →
     ∃ r st' args lf lsys h,
       conversation context request st = (Ret r, st') ∧
       st_calls st' = (c1 ++ [(args, h)])%list ∧
       args !! "messages" = Some (VRef lf) ∧
       h !! lf = Some (OList (VRef lsys :: filter (λ m, role_of h1 m ≠ VStr "tool") msgs)) ∧
       h !! lsys = Some (ODict {[ "role" := VStr "system"; "content" := VStr prompt ]}) ∧
       h1 !! lsys = None ∧
       Forall (λ m, role_of h m ≠ VStr "tool")
              (VRef lsys :: filter (λ m, role_of h1 m ≠ VStr "tool") msgs) ∧
       length (VRef lsys :: filter (λ m, role_of h1 m ≠ VStr "tool") msgs)
       + length (filter (λ m, role_of h1 m = VStr "tool") msgs)
       = length msgs + 1).
Proof.
  split.
  - intros o st'. apply conversation_forwards_only.
  - intros lr h1 c1 d msgs prompt client. apply conversation_forwards.
Qed.

(** C10: a decoded body without a [messages] key, or with an empty
    list under it, is not turned away: with a usable prompt and a client
    the call goes out, and its [messages] argument is the one-element
    list holding the system message for the selected prompt. *)
Theorem empty_messages_forward_prompt_only context request st lr h1 c1 d prompt client :
  is_json request = true →
  get_json request st = (Ret (VRef lr), State h1 c1) →
  h1 !! lr = Some (ODict d) →
  d !! "messages" = None ∨
    (∃ lm, d !! "messages" = Some (VRef lm) ∧ h1 !! lm = Some (OList [])) →
  select_prompt context = Some prompt → prompt ≠ "" →
  AsyncAzureOpenAI openai_config = inr client →
  ∃ r st' args lf lsys h,
    conversation context request st = (Ret r, st') ∧
    st_calls st' = (c1 ++ [(args, h)])%list ∧
    args !! "messages" = Some (VRef lf) ∧
    h !! lf = Some (OList [VRef lsys]) ∧
    h !! lsys = Some (ODict {[ "role" := VStr "system"; "content" := VStr prompt ]}).
Proof.
  intros Hj Hget Hr Hempty Hp Hne Hclient.
  assert (Hmsgs : original_messages h1 d = Some []).
  { unfold original_messages. destruct Hempty as [->|(lm & -> & Hl)]; [done|].
    simpl. by rewrite Hl. }
  destruct (conversation_sends _ _ _ _ _ _ _ _ _ Hj Hget Hr Hmsgs (Forall_nil_2 _) Hp Hne)
    as (lm & lsys & lf & h2 & h3 & Hconv & Hsend & Hr3 & Hf3 & Hs3 & _).
  rewrite Hclient in Hsend.
  assert (∃ o, send_chat_request (VRef lr) (headers request) (State h2 c1)
               = (o, State h3 (c1 ++ [(model_args_for (VRef lf), h3)]))) as [o Ho].
  { destruct (chat_completions_create client _ h3); by eexists. }
  destruct (conversation_internal_after _ _ _ _ _ Ho) as (r & st2 & E & Hcalls & _).
  exists r, st2, (model_args_for (VRef lf)), lf, lsys, h3.
  split; [by rewrite Hconv|]. split; [done|].
  split; [apply lookup_insert_eq|]. by split.
Qed.

(** C5: whatever [send_chat_request] raises, the model call's failure
    included, is answered with the exception's [status_code] when it has
    one and with 500 when it has none, and an [error] body; and for a
    well-formed request whose call went out, a failure of that call is
    answered in this way. *)
Theorem upstream_failure_status :
  (∀ request_body hdrs st e st1,
     send_chat_request request_body hdrs st = (Raise e, st1) →
     ∃ r, conversation_internal request_body hdrs st = (Ret r, st1) ∧
          resp_status r = match exn_status_code e with
                          | Some status_code => status_code
                          | None => 500%Z
                          end ∧
          resp_body r !! "error" = Some (VStr (exn_str e))) ∧
  (∀ context request st lr h1 c1 d msgs prompt client,
     is_json request = true →
     get_json request st = (Ret (VRef lr), State h1 c1) →
     h1 !! lr = Some (ODict d) →
     original_messages h1 d = Some msgs →
     Forall (is_dict h1) msgs →
     select_prompt context = Some prompt → prompt ≠ "" →
     AsyncAzureOpenAI openai_config = inr client →
     ∃ r st' args h,
       conversation context request st = (Ret r, st') ∧
       st_calls st' = (c1 ++ [(args, h)])%list ∧
       ∀ e, chat_completions_create client args h = inl e →
            resp_status r = match exn_status_code e with
                            | Some status_code => status_code
                            | None => 500%Z
                            end ∧
            resp_body r !! "error" = Some (VStr (exn_str e))).
Proof.
  split.
  - intros request_body hdrs st e st1 E. exists (error_reply e).
    split; [by apply conversation_internal_catches|].
    split; [reflexivity|apply error_response_error].
  - intros context request st lr h1 c1 d msgs prompt client
      Hj Hget Hr Hmsgs Hall Hp Hne Hclient.
    destruct (conversation_sends _ _ _ _ _ _ _ _ _ Hj Hget Hr Hmsgs Hall Hp Hne)
      as (lm & lsys & lf & h2 & h3 & Hconv & Hsend & _).
    rewrite Hclient in Hsend.
    destruct (chat_completions_create client (model_args_for (VRef lf)) h3)
      as [e|raw] eqn:Hup.
    + exists (error_reply e). eexists _, _, h3. rewrite Hconv.
      split; [by apply conversation_internal_catches|]. split; [done|].
      intros e' He'. rewrite Hup in He'. injection He' as <-.
      split; [reflexivity|apply error_response_error].
    + destruct (conversation_internal_after _ _ _ _ _ Hsend) as (r & st2 & E & Hcalls & _).
      exists r, st2, (model_args_for (VRef lf)), h3. rewrite Hconv.
      split; [done|]. split; [done|]. intros e He. by rewrite Hup in He.
Qed.

(** C9: when the call that went out succeeds and its first choice has
    a message, the answer has status 200 and its [history_metadata] is
    the very value the client sent under that key, the object behind it
    being in the final store what it was when decoded; when the client
    sent none it is a new empty dictionary. *)
Theorem history_metadata_echoed context request st lr h1 c1 d msgs prompt client :
  is_json request = true →
  get_json request st = (Ret (VRef lr), State h1 c1) →
  h1 !! lr = Some (ODict d) →
  original_messages h1 d = Some msgs →
  Forall (is_dict h1) msgs →
  select_prompt context = Some prompt → prompt ≠ "" →
  AsyncAzureOpenAI openai_config = inr client →
  ∃ r st' args h,
    conversation context request st = (Ret r, st') ∧
    st_calls st' = (c1 ++ [(args, h)])%list ∧
    ∀ raw m rest,
      chat_completions_create client args h = inr raw →
      completion_choices (raw_parse raw) = Some m :: rest →
      resp_status r = 200%Z ∧
      ∃ hm, resp_body r !! "history_metadata" = Some hm ∧
            match d !! "history_metadata" with
            | Some x =>
                hm = x ∧
                ∀ l o, x = VRef l → l ≠ lr → d !! "messages" ≠ Some (VRef l) →
                       h1 !! l = Some o → st_heap st' !! l = Some o
            | None =>
                ∃ l, hm = VRef l ∧ h !! l = None ∧ st_heap st' !! l = Some (ODict ∅)
            end.
Proof.
  intros Hj Hget Hr Hmsgs Hall Hp Hne Hclient.
  destruct (conversation_sends _ _ _ _ _ _ _ _ _ Hj Hget Hr Hmsgs Hall Hp Hne)
    as (lm & lsys & lf & h2 & h3 & Hconv & Hsend & Hr3 & _ & _ & _ & _ & Hlm & HF).
  rewrite Hclient in Hsend.
  assert (∃ o, send_chat_request (VRef lr) (headers request) (State h2 c1)
               = (o, State h3 (c1 ++ [(model_args_for (VRef lf), h3)]))) as [o Ho].
  { destruct (chat_completions_create client _ h3); by eexists. }
  destruct (conversation_internal_after _ _ _ _ _ Ho) as (r & st2 & E & Hcalls & HF2 & _).
  exists r, st2, (model_args_for (VRef lf)), h3. rewrite Hconv.
  split; [done|]. split; [done|]. intros raw m rest Hup Hc.
  rewrite Hup in Hsend.
  destruct (conversation_internal_replies _ _ _ _ _ _ _ _ _ _ Hsend Hr3 Hc)
    as (reply & hm & st2' & E' & Hhm & Hmeta).
  rewrite E in E'. injection E' as -> <-. split; [done|].
  exists hm. split; [done|].
  rewrite lookup_insert_ne in Hmeta by done.
  destruct (d !! "history_metadata") as [x|]; [|done].
  split; [done|]. intros l o' -> Hnr Hnm Hl.
  assert (Hnin : l ∉ ({[lr; lm]} : gset positive)).
  { apply not_elem_of_union. split; apply not_elem_of_singleton; [done|].
    intros ->. destruct Hlm as [Hlm|Hlm]; congruence. }
  destruct HF as [HF _]. destruct HF2 as [HF2 _].
  apply HF2; [apply not_elem_of_empty|]. by apply HF.
Qed.

(** C3: whatever the request and the outcome, every object that was in
    the store before the request is there unchanged afterwards; and of
    the decoded body every dictionary, so every message, keeps each of
    its fields apart from [messages], its content in particular; and
    every decoded object other than the body and the list under its
    [messages] key is wholly unchanged. *)
Theorem normalization_keeps_caller_data context request st o st' :
  conversation context request st = (o, st') →
  (∀ l x, st_heap st !! l = Some x → st_heap st' !! l = Some x) ∧
  (∀ v st1,
     is_json request = true → get_json request st = (Ret v, st1) →
     (∀ l dm, st_heap st1 !! l = Some (ODict dm) →
        ∃ dm', st_heap st' !! l = Some (ODict dm') ∧
               dm' !! "content" = dm !! "content" ∧
               ∀ k, k ≠ "messages" → dm' !! k = dm !! k) ∧
     (∀ l x, st_heap st1 !! l = Some x → v ≠ VRef l →
        (∀ lr d, v = VRef lr → st_heap st1 !! lr = Some (ODict d) →
                 d !! "messages" ≠ Some (VRef l)) →
        st_heap st' !! l = Some x)).
Proof.
  intros E. split.
  - intros l x Hl. destruct (is_json request) eqn:Hj.
    + destruct (get_json request st) as [[v|e] st1] eqn:Hget.
      * destruct (conversation_writes _ _ _ _ _ _ _ Hj Hget E) as (S & [HF _] & HS).
        pose proof (get_json_frame ∅ _ _ _ _ Hget) as [H0 _].
        apply HF; [|by apply H0; [apply not_elem_of_empty|]].
        intros Hin. unfold get_json in Hget. destruct (body request) as [j|]; [|done].
        destruct (HS _ Hin) as [->|[(lr & d & -> & Hr & Hm)|Hn]].
        -- by rewrite (load_result_fresh _ _ _ _ _ Hget eq_refl) in Hl.
        -- by rewrite (load_fields_fresh _ _ _ _ _ _ _ Hget Hr Hm) in Hl.
        -- apply H0 in Hl; [congruence|apply not_elem_of_empty].
      * unfold conversation in E. rewrite Hj in E. simpl in E.
        rewrite (bind_Raise _ _ _ _ _ Hget) in E. injection E as <- <-.
        apply (get_json_frame ∅ _ _ _ _ Hget); [apply not_elem_of_empty|done].
    + unfold conversation in E. rewrite Hj in E. by injection E as <- <-.
  - intros v st1 Hj Hget.
    destruct (conversation_writes _ _ _ _ _ _ _ Hj Hget E) as (S & [HF HD] & HS). split.
    + intros l dm Hl. destruct (HD _ _ Hl) as (dm' & Hl' & K).
      exists dm'. split; [done|]. split; [by apply K|done].
    + intros l x Hl Hv Hm. apply HF; [|done]. intros Hin.
      destruct (HS _ Hin) as [->|[(lr & d & -> & Hr & Hd)|Hn]]; [done| |congruence].
      by eapply Hm.
Qed.

(** ** Further properties of the startup and of the routes *)

(** *** Startup *)

(** X1: with the chat history not configured, [init_cosmosdb_client]
    returns [None] whatever the constructors would do, and the startup
    ends serving, with [None] stored as the client and the readiness
    signal set. *)
Theorem history_disabled_serves :
  chat_history app_settings = None →
  init_cosmosdb_client = inr None ∧
  startup create_app = (Serving, {| cosmos_conversation_client := Some None;
                                    cosmos_db_ready := true |}).
Proof. intros H. unfold startup, init, init_cosmosdb_client. by rewrite H. Qed.

(** X2: with an account key configured, the history store's client is
    built for https://ACCOUNT.documents.azure.com:443/ with the key as
    its credential and the database, container and feedback flag of the
    settings; the default credential is not asked for, and the
    constructor's exception is the one raised. *)
Theorem account_key_is_the_credential ch k :
  chat_history app_settings = Some ch →
  account_key ch = Some k → k ≠ "" →
  init_cosmosdb_client
  = match CosmosConversationClient
            {| cosmosdb_endpoint := "https://" ++ fmt (account ch) ++ ".documents.azure.com:443/";
               credential := inl k;
               database_name := database ch;
               container_name := conversations_container ch;
               enable_message_feedback := enable_feedback ch |} with
    | inl e => inl e
    | inr client => inr (Some client)
    end.
Proof.
  intros Hch Hk Hne. unfold init_cosmosdb_client. rewrite Hch, Hk. simpl.
  by rewrite bool_decide_false.
Qed.

(** X3: without an account key (missing or empty) the default
    credential is asked for: when that fails its exception is raised and
    the client constructor is not reached; when it returns, the client
    is built with it. *)
Theorem missing_key_asks_default_credential ch :
  chat_history app_settings = Some ch →
  falsy (account_key ch) = true →
  match DefaultAzureCredential with
  | inl e => init_cosmosdb_client = inl e
  | inr c =>
      init_cosmosdb_client
      = match CosmosConversationClient
              {| cosmosdb_endpoint :=
                   "https://" ++ fmt (account ch) ++ ".documents.azure.com:443/";
                 credential := inr c;
                 database_name := database ch;
                 container_name := conversations_container ch;
                 enable_message_feedback := enable_feedback ch |} with
        | inl e => inl e
        | inr client => inr (Some client)
        end
  end.
Proof.
  intros Hch Hk. unfold init_cosmosdb_client. rewrite Hch, Hk.
  by destruct DefaultAzureCredential.
Qed.

(** X4: after the startup the client attribute is always set, to a
    client or to [None]; the process serves exactly when the readiness
    signal is set; and a stored client means that it serves. *)
Theorem startup_serves_iff_ready :
  let '(phase, app) := startup create_app in
  (phase = Serving ↔ cosmos_db_ready app = true) ∧
  is_Some (cosmos_conversation_client app) ∧
  (∀ client, cosmos_conversation_client app = Some (Some client) → phase = Serving).
Proof.
  unfold startup, init. destruct init_cosmosdb_client as [e|client]; simpl.
  - split; [split; intros; done|]. split; [by eexists|]. intros client [=].
  - split; [done|]. split; [by eexists|done].
Qed.

(** X5: the completion client is built for the configured endpoint when
    there is one, whatever the resource name; without one (missing or
    empty) it is built for https://RESOURCE.openai.azure.com/.  Either
    way the API version and key are the settings', the constructor's
    exception is raised again, and the state is left as it was. *)
Theorem endpoint_overrides_resource st :
  (∀ e, endpoint (azure_openai app_settings) = Some e → e ≠ "" →
        init_openai_client st
        = (match AsyncAzureOpenAI
                   {| api_version := preview_api_version (azure_openai app_settings);
                      api_key := key (azure_openai app_settings);
                      azure_endpoint := e |} with
           | inl ex => Raise ex
           | inr client => Ret client
           end, st)) ∧
  (falsy (endpoint (azure_openai app_settings)) = true →
   init_openai_client st
   = (match AsyncAzureOpenAI
              {| api_version := preview_api_version (azure_openai app_settings);
                 api_key := key (azure_openai app_settings);
                 azure_endpoint :=
                   "https://" ++ fmt (resource (azure_openai app_settings))
                              ++ ".openai.azure.com/" |} with
      | inl ex => Raise ex
      | inr client => Ret client
      end, st)).
Proof.
  split.
  - intros e He Hne. rewrite init_openai_client_run. unfold openai_config, str_or.
    rewrite He, bool_decide_false by done. by destruct (AsyncAzureOpenAI _).
  - intros Hf. rewrite init_openai_client_run. unfold openai_config, str_or.
    unfold falsy in Hf. destruct (endpoint (azure_openai app_settings)) as [e|].
    + rewrite Hf. by destruct (AsyncAzureOpenAI _).
    + by destruct (AsyncAzureOpenAI _).
Qed.

(** *** [send_chat_request] *)

Lemma filter_all (P : val → Prop) `{!∀ x, Decision (P x)} (xs : list val) :
  Forall P xs → filter P xs = xs.
Proof.
  induction 1 as [|x xs Hx _ IH]; [done|]. rewrite filter_cons.
  destruct (decide (P x)); [by rewrite IH|done].
Qed.

Lemma filter_holds (P : val → Prop) `{!∀ x, Decision (P x)} (xs : list val) :
  Forall P (filter P xs).
Proof. apply Forall_forall. by intros x [Hx _]%list_elem_of_filter. Qed.

(** The store that [send_chat_request] leaves, whether the call
    returned, raised or was not made. *)
Lemma send_chat_request_effect lr d lm items hdrs h c o st' :
  h !! lr = Some (ODict d) → d !! "messages" = Some (VRef lm) →
  h !! lm = Some (OList items) → Forall (is_dict h) items →
  send_chat_request (VRef lr) hdrs (State h c) = (o, st') →
  st_heap st'
  = <[lr := ODict (<["messages" := VRef (fresh (dom h))]> d)]>
    (<[fresh (dom h) := OList (filter (λ m, role_of h m ≠ VStr "tool") items)]> h).
Proof.
  intros Hr Hm Hl Hall E.
  pose proof (send_chat_request_run lr d lm items hdrs h c Hr Hm Hl Hall) as R.
  cbv zeta in R. rewrite R in E.
  destruct (AsyncAzureOpenAI openai_config) as [e|client]; [by injection E as _ <-|].
  destruct (chat_completions_create client _ _); by injection E as _ <-.
Qed.

(** X7: [send_chat_request] rewrites the body before it calls the
    model: whether the call returns, raises or is never made, the body's
    [messages] key then refers to a list that did not exist before and
    holds the messages whose role is not "tool", in order; the list the
    key referred to, and every object other than the body, are as they
    were. *)
Theorem send_chat_request_rebinds_messages lr d lm items hdrs h c o st' :
  h !! lr = Some (ODict d) → d !! "messages" = Some (VRef lm) →
  h !! lm = Some (OList items) → Forall (is_dict h) items →
  send_chat_request (VRef lr) hdrs (State h c) = (o, st') →
  ∃ lf, h !! lf = None ∧
        st_heap st' !! lr = Some (ODict (<["messages" := VRef lf]> d)) ∧
        st_heap st' !! lf
        = Some (OList (filter (λ m, role_of h m ≠ VStr "tool") items)) ∧
        st_heap st' !! lm = Some (OList items) ∧
        ∀ l x, l ≠ lr → h !! l = Some x → st_heap st' !! l = Some x.
Proof.
  intros Hr Hm Hl Hall E.
  rewrite (send_chat_request_effect _ _ _ _ _ _ _ _ _ Hr Hm Hl Hall E).
  assert (Hf := fresh_lookup h).
  assert (lr ≠ fresh (dom h)) by (by eapply fresh_ne).
  exists (fresh (dom h)). split; [done|]. split; [by rewrite lookup_insert_eq|].
  split; [by rewrite lookup_insert_ne, lookup_insert_eq|].
  assert (Hother : ∀ l x, l ≠ lr → h !! l = Some x →
            <[lr := ODict (<["messages" := VRef (fresh (dom h))]> d)]>
              (<[fresh (dom h) := OList (filter (λ m, role_of h m ≠ VStr "tool") items)]> h)
            !! l = Some x).
  { intros l x Hne Hx. rewrite lookup_insert_ne by done.
    rewrite lookup_insert_ne; [done|]. symmetry. by eapply fresh_ne. }
  split; [|exact Hother]. apply Hother; [|done]. intros ->. congruence.
Qed.

(** X8: a body without a [messages] key is sent as it is: with a client
    the call goes out, its [messages] argument is a new empty list, and
    that list is stored in the body. *)
Theorem send_chat_request_without_messages lr d hdrs h c client :
  h !! lr = Some (ODict d) → d !! "messages" = None →
  AsyncAzureOpenAI openai_config = inr client →
  ∃ o st' args lf hh,
    send_chat_request (VRef lr) hdrs (State h c) = (o, st') ∧
    st_calls st' = (c ++ [(args, hh)])%list ∧
    args !! "messages" = Some (VRef lf) ∧
    h !! lf = None ∧
    hh !! lf = Some (OList []) ∧
    hh !! lr = Some (ODict (<["messages" := VRef lf]> d)).
Proof.
  intros Hr Hm Hclient. unfold send_chat_request.
  set (l0 := fresh (dom h)). set (h0 := <[l0 := OList []]> h).
  assert (Hf := fresh_lookup h). fold l0 in Hf.
  assert (lr ≠ l0) by (by eapply fresh_ne).
  rewrite (bind_Ret _ _ _ (VRef l0) (State h0 c));
    last by rewrite (dict_get_missing _ _ _ _ c _ Hr Hm).
  rewrite (bind_Ret _ _ _ [] (State h0 c));
    last by (apply iterate_list; unfold h0; by rewrite lookup_insert_eq).
  rewrite (bind_Ret _ _ _ [] (State h0 c)) by done.
  rewrite (bind_Ret _ _ _ _ _ (alloc_run _ h0 c)).
  set (lf := fresh (dom h0)). set (h1 := <[lf := OList []]> h0).
  assert (Hf0 := fresh_lookup h0). fold lf in Hf0.
  assert (Hr0 : h0 !! lr = Some (ODict d)) by (unfold h0; by rewrite lookup_insert_ne).
  assert (lr ≠ lf) by (by eapply fresh_ne).
  assert (Hr1 : h1 !! lr = Some (ODict d)) by (unfold h1; by rewrite lookup_insert_ne).
  rewrite (bind_Ret _ _ _ _ _ (dict_setitem_run _ "messages" (VRef lf) _ c _ Hr1)).
  erewrite bind_Ret; last first.
  { eapply prepare_model_args_run; apply lookup_insert_eq. }
  unfold try_except, bind. rewrite init_openai_client_run, Hclient. simpl.
  unfold create. simpl.
  assert (Hlf : h !! lf = None).
  { assert (Hl0 : h0 !! l0 = Some (OList [])) by (unfold h0; apply lookup_insert_eq).
    rewrite <- (lookup_insert_ne h l0 lf (OList [])); [exact Hf0|]. congruence. }
  destruct (chat_completions_create client _ _) as [e|raw]; eexists _, _, _, lf, _;
    (split; [done|]); (split; [done|]); (split; [apply lookup_insert_eq|]);
    (split; [done|]);
    simpl;
    (split; [unfold h1; by rewrite lookup_insert_ne, lookup_insert_eq
            |by rewrite lookup_insert_eq]).
Qed.

(** X9: when no message has role "tool" (a message without a role, or
    with any other role, counts as such) nothing is dropped or
    reordered: the new list under [messages] has the elements of the
    old one. *)
Theorem no_tool_message_forwards_all lr d lm items hdrs h c o st' :
  h !! lr = Some (ODict d) → d !! "messages" = Some (VRef lm) →
  h !! lm = Some (OList items) → Forall (is_dict h) items →
  Forall (λ m, role_of h m ≠ VStr "tool") items →
  send_chat_request (VRef lr) hdrs (State h c) = (o, st') →
  ∃ lf, h !! lf = None ∧
        st_heap st' !! lr = Some (ODict (<["messages" := VRef lf]> d)) ∧
        st_heap st' !! lf = Some (OList items).
Proof.
  intros Hr Hm Hl Hall Hnt E.
  rewrite (send_chat_request_effect _ _ _ _ _ _ _ _ _ Hr Hm Hl Hall E).
  rewrite (filter_all _ _ Hnt).
  assert (lr ≠ fresh (dom h)) by (by eapply fresh_ne).
  exists (fresh (dom h)). split; [apply fresh_lookup|].
  split; [by rewrite lookup_insert_eq|by rewrite lookup_insert_ne, lookup_insert_eq].
Qed.

(** X10: sending the same body twice filters once: the second run
    builds another new list with the elements the first run kept, and
    the body ends up referring to it. *)
Theorem send_chat_request_twice lr d lm items hdrs h c o1 st1 o2 st2 :
  h !! lr = Some (ODict d) → d !! "messages" = Some (VRef lm) →
  h !! lm = Some (OList items) → Forall (is_dict h) items →
  send_chat_request (VRef lr) hdrs (State h c) = (o1, st1) →
  send_chat_request (VRef lr) hdrs st1 = (o2, st2) →
  ∃ lf1 lf2,
    lf1 ≠ lf2 ∧
    st_heap st2 !! lf1 = Some (OList (filter (λ m, role_of h m ≠ VStr "tool") items)) ∧
    st_heap st2 !! lf2 = Some (OList (filter (λ m, role_of h m ≠ VStr "tool") items)) ∧
    st_heap st2 !! lr = Some (ODict (<["messages" := VRef lf2]> d)).
Proof.
  intros Hr Hm Hl Hall E1 E2.
  pose proof (send_chat_request_effect _ _ _ _ _ _ _ _ _ Hr Hm Hl Hall E1) as H1.
  assert (HF : frame {[lr]} (State h c) st1).
  { eapply (send_chat_request_frame {[lr]} (VRef lr)); [simpl; reflexivity|exact E1]. }
  destruct st1 as [h1 c1]. simpl in H1.
  set (lf1 := fresh (dom h)) in *.
  set (kept := filter (λ m, role_of h m ≠ VStr "tool") items) in *.
  assert (Hf := fresh_lookup h). fold lf1 in Hf.
  assert (lr ≠ lf1) by (by eapply fresh_ne).
  assert (Hr1 : h1 !! lr = Some (ODict (<["messages" := VRef lf1]> d)))
    by (rewrite H1; by rewrite lookup_insert_eq).
  assert (Hl1 : h1 !! lf1 = Some (OList kept))
    by (rewrite H1; by rewrite lookup_insert_ne, lookup_insert_eq).
  assert (Hkept : Forall (is_dict h) kept).
  { apply Forall_forall. intros m [_ Hin]%list_elem_of_filter.
    rewrite Forall_forall in Hall. by apply Hall. }
  assert (Hall1 : Forall (is_dict h1) kept).
  { eapply Forall_impl; [exact Hkept|]. intros m Hd.
    by apply (frame_is_dict _ _ _ _ HF). }
  pose proof (send_chat_request_effect _ _ _ _ _ _ _ _ _ Hr1
                (lookup_insert_eq _ _ _) Hl1 Hall1 E2) as H2.
  pose proof (filter_role_frame _ _ _ _ HF Hkept) as Hfil. simpl in Hfil.
  rewrite Hfil in H2. unfold kept in H2 at 1.
  rewrite (filter_all _ _ (filter_holds _ items)) in H2. fold kept in H2.
  rewrite insert_insert_eq in H2.
  set (lf2 := fresh (dom h1)) in *.
  assert (Hf1 := fresh_lookup h1). fold lf2 in Hf1.
  assert (lf1 ≠ lf2) by (intros Heq; rewrite <- Heq in Hf1; congruence).
  assert (lr ≠ lf2) by (intros Heq; rewrite <- Heq in Hf1; congruence).
  exists lf1, lf2. split; [done|]. rewrite H2.
  split; [by do 2 (rewrite lookup_insert_ne by done)|].
  split; [by rewrite lookup_insert_ne, lookup_insert_eq|by rewrite lookup_insert_eq].
Qed.

(** *** [conversation] *)

(** The comprehension raises at the first element that is not a
    dictionary. *)
Lemma comprehension_stops pre v post h c :
  Forall (is_dict h) pre → ¬ is_dict h v →
  comprehension not_tool (pre ++ v :: post) (State h c)
  = (Raise (AttributeError h v "get"), State h c).
Proof.
  induction 1 as [|x pre Hx _ IH]; intros Hv; simpl.
  - by rewrite (bind_Raise _ _ _ _ _ (not_tool_raises _ _ c Hv)).
  - rewrite (bind_Ret _ _ _ _ _ (not_tool_run _ _ c Hx)).
    by rewrite (bind_Raise _ _ _ _ _ (IH Hv)).
Qed.

Lemma send_chat_request_stops_at_item lr d lm pre v post hdrs h c :
  h !! lr = Some (ODict d) → d !! "messages" = Some (VRef lm) →
  h !! lm = Some (OList (pre ++ v :: post)) →
  Forall (is_dict h) pre → ¬ is_dict h v →
  send_chat_request (VRef lr) hdrs (State h c)
  = (Raise (AttributeError h v "get"), State h c).
Proof.
  intros Hr Hm Hl Hpre Hv. unfold send_chat_request.
  rewrite (bind_Ret _ _ _ _ _ (dict_get_found _ _ _ _ _ _ _ Hr Hm)).
  rewrite (bind_Ret _ _ _ _ _ (iterate_list _ _ _ _ Hl)).
  by rewrite (bind_Raise _ _ _ _ _ (comprehension_stops _ _ _ _ c Hpre Hv)).
Qed.

(** The store in which [conversation_internal] is entered, for a body
    whose [messages] key holds a list. *)
Lemma conversation_normalizes_present context request st lr h1 c1 d lm msgs prompt :
  is_json request = true →
  get_json request st = (Ret (VRef lr), State h1 c1) →
  h1 !! lr = Some (ODict d) →
  d !! "messages" = Some (VRef lm) → h1 !! lm = Some (OList msgs) →
  select_prompt context = Some prompt → prompt ≠ "" →
  conversation context request st
  = conversation_internal (VRef lr) (headers request)
      (State (<[lr := ODict (<["messages" := VRef lm]> d)]>
             (<[lm := OList (VRef (fresh (dom h1)) :: msgs)]>
             (<[fresh (dom h1) := system_message_dict (Some prompt)]> h1))) c1).
Proof.
  intros Hj Hget Hr Hm Hl Hp Hne. unfold conversation.
  rewrite Hj. simpl. rewrite (bind_Ret _ _ _ _ _ Hget). rewrite Hp. simpl.
  rewrite bool_decide_false by done.
  rewrite (bind_Ret _ _ _ _ _ (dict_get_found _ _ _ _ c1 _ _ Hr Hm)).
  by rewrite (insert_system_message lr lm d msgs _ h1 c1 _ Hr Hl).
Qed.

(** X11: when the first element of the message list that is not an
    object is a number, a string, a boolean, null or an array, the
    request is answered with status 500 and, as its error, the text of
    the AttributeError that [message.get] raises on that element: 'T'
    object has no attribute 'get', T being the element's type; the model
    is not called. *)
Theorem non_object_message_is_500 context request st lr h1 c1 d pre m post prompt :
  is_json request = true →
  get_json request st = (Ret (VRef lr), State h1 c1) →
  h1 !! lr = Some (ODict d) →
  original_messages h1 d = Some (pre ++ m :: post)%list →
  Forall (is_dict h1) pre →
  (∀ l, m = VRef l → ∃ xs, h1 !! l = Some (OList xs)) →
  select_prompt context = Some prompt → prompt ≠ "" →
  ∃ st',
    conversation context request st
    = (Ret (error_response
              ("'" ++ type_name h1 m ++ "' object has no attribute 'get'") 500), st') ∧
    st_calls st' = c1.
Proof.
  intros Hj Hget Hr Hmsgs Hpre Hm Hp Hne.
  destruct (conversation_normalizes _ _ _ _ _ _ _ _ _ Hj Hget Hr Hmsgs Hp Hne)
    as (lm & lsys & h2 & Hconv & Hr2 & Hl2 & Hs2 & Hs1 & Hlm & HF).
  assert (Hlist : ∀ l, m = VRef l → ∃ ys, h2 !! l = Some (OList ys)).
  { intros l Hl. destruct (Hm l Hl) as [xs Hxs].
    destruct (decide (l = lm)) as [->|Hnlm]; [by eexists|].
    assert (Hnin : l ∉ ({[lr; lm]} : gset positive)).
    { apply not_elem_of_union. split; apply not_elem_of_singleton; [|done].
      intros ->. congruence. }
    destruct HF as [HF1 _]. exists xs. exact (HF1 _ _ Hnin Hxs). }
  assert (Hbad : ¬ is_dict h2 m).
  { intros [dm Hdm]. destruct m as [| | | | |l]; try done. simpl in Hdm.
    destruct (Hlist l eq_refl) as [ys Hys]. congruence. }
  assert (Htype : type_name h2 m = type_name h1 m).
  { destruct m as [| | | | |l]; try done. simpl.
    destruct (Hm l eq_refl) as [xs ->]. by destruct (Hlist l eq_refl) as [ys ->]. }
  assert (Hpre2 : Forall (is_dict h2) (VRef lsys :: pre)).
  { constructor; [by eexists|]. eapply Forall_impl; [exact Hpre|].
    intros x Hx. by apply (frame_is_dict _ _ _ _ HF). }
  pose proof (send_chat_request_stops_at_item lr _ lm (VRef lsys :: pre) m post
                (headers request) h2 c1 Hr2 (lookup_insert_eq _ _ _) Hl2 Hpre2 Hbad)
    as Hsend.
  exists (State h2 c1). rewrite Hconv.
  rewrite (conversation_internal_catches _ _ _ _ _ Hsend).
  unfold error_reply, AttributeError. simpl. by rewrite Htype.
Qed.

(** X12: the handler changes the decoded body in place.  Afterwards,
    whatever the upstream did, the list the client's [messages] key
    referred to has the system message in front of all its messages,
    tool messages included, and the body's [messages] key refers to
    another, new list: the system message and the messages whose role is
    not "tool". *)
Theorem conversation_rewrites_the_body context request st lr h1 c1 d lm msgs prompt o st' :
  is_json request = true →
  get_json request st = (Ret (VRef lr), State h1 c1) →
  h1 !! lr = Some (ODict d) →
  d !! "messages" = Some (VRef lm) → h1 !! lm = Some (OList msgs) →
  Forall (is_dict h1) msgs →
  select_prompt context = Some prompt → prompt ≠ "" →
  conversation context request st = (o, st') →
  ∃ lsys lf,
    h1 !! lsys = None ∧ h1 !! lf = None ∧ lf ≠ lm ∧
    st_heap st' !! lsys
    = Some (ODict {[ "role" := VStr "system"; "content" := VStr prompt ]}) ∧
    st_heap st' !! lm = Some (OList (VRef lsys :: msgs)) ∧
    st_heap st' !! lr = Some (ODict (<["messages" := VRef lf]> d)) ∧
    st_heap st' !! lf
    = Some (OList (VRef lsys :: filter (λ m, role_of h1 m ≠ VStr "tool") msgs)).
Proof.
  intros Hj Hget Hr Hm Hl Hall Hp Hne E.
  rewrite (conversation_normalizes_present _ _ _ _ _ _ _ _ _ _ Hj Hget Hr Hm Hl Hp Hne) in E.
  set (lsys := fresh (dom h1)) in *.
  set (h2 := <[lr := ODict (<["messages" := VRef lm]> d)]>
             (<[lm := OList (VRef lsys :: msgs)]>
             (<[lsys := system_message_dict (Some prompt)]> h1))) in *.
  assert (Hs1 := fresh_lookup h1). fold lsys in Hs1.
  assert (lr ≠ lm) by (intros ->; congruence).
  assert (lr ≠ lsys) by (intros ->; congruence).
  assert (lm ≠ lsys) by (intros ->; congruence).
  assert (Hr2 : h2 !! lr = Some (ODict (<["messages" := VRef lm]> d)))
    by (unfold h2; by rewrite lookup_insert_eq).
  assert (Hl2 : h2 !! lm = Some (OList (VRef lsys :: msgs)))
    by (unfold h2; by rewrite lookup_insert_ne, lookup_insert_eq).
  assert (Hs2 : h2 !! lsys = Some (system_message_dict (Some prompt)))
    by (unfold h2; do 2 (rewrite lookup_insert_ne by done); by rewrite lookup_insert_eq).
  assert (HF : frame {[lr; lm]} (State h1 c1) (State h2 c1)).
  { eapply normalized_frame; [done| |done|exact Hr2|].
    - intros dm. by rewrite Hl.
    - intros l ? ? ?. unfold h2. by rewrite !lookup_insert_ne. }
  assert (Hall2 : Forall (is_dict h2) (VRef lsys :: msgs)).
  { constructor; [by eexists|]. eapply Forall_impl; [exact Hall|].
    intros m Hd. by apply (frame_is_dict _ _ _ _ HF). }
  destruct (send_chat_request (VRef lr) (headers request) (State h2 c1))
    as [o1 st1] eqn:Es.
  pose proof (send_chat_request_effect _ _ _ _ _ _ _ _ _ Hr2
                (lookup_insert_eq _ _ _) Hl2 Hall2 Es) as H3.
  rewrite insert_insert_eq, filter_cons in H3.
  rewrite (role_of_system_message _ _ _ Hs2) in H3.
  destruct (decide (VStr "system" ≠ VStr "tool")) as [_|Hn]; [|by destruct Hn].
  pose proof (filter_role_frame _ _ _ _ HF Hall) as Hfil. simpl in Hfil.
  rewrite Hfil in H3. clear Hfil.
  set (lf := fresh (dom h2)) in *.
  assert (Hf2 := fresh_lookup h2). fold lf in Hf2.
  assert (lr ≠ lf) by (intros Heq; rewrite <- Heq in Hf2; congruence).
  assert (lm ≠ lf) by (intros Heq; rewrite <- Heq in Hf2; congruence).
  assert (lsys ≠ lf) by (intros Heq; rewrite <- Heq in Hf2; congruence).
  destruct (conversation_internal_after _ _ _ _ _ Es) as (r & st2 & E2 & _ & [HF2 _] & _).
  rewrite E2 in E. injection E as _ <-.
  assert (Hkeep : ∀ l x, st_heap st1 !! l = Some x → st_heap st2 !! l = Some x).
  { intros l x. apply HF2, not_elem_of_empty. }
  exists lsys, lf. split; [done|]. split.
  { unfold h2 in Hf2. do 3 (rewrite lookup_insert_ne in Hf2 by done). done. }
  split; [done|].
  split; [apply Hkeep; rewrite H3; by do 2 (rewrite lookup_insert_ne by done)|].
  split; [apply Hkeep; rewrite H3; by do 2 (rewrite lookup_insert_ne by done)|].
  split; [apply Hkeep; rewrite H3; by rewrite lookup_insert_eq|].
  apply Hkeep. rewrite H3. by rewrite lookup_insert_ne, lookup_insert_eq.
Qed.

(** X13: what [conversation] does with a decoded body of the wrong
    shape, once a prompt is selected: a body that is not an object makes
    [request_json.get] raise, and a [messages] value that is not a list
    makes [messages.insert] raise; either way the AttributeError leaves
    the view function, nothing is written and no call goes out. *)
Theorem malformed_body_raises context request st v h1 c1 :
  is_json request = true →
  get_json request st = (Ret v, State h1 c1) →
  falsy (select_prompt context) = false →
  (¬ is_dict h1 v →
   conversation context request st = (Raise (AttributeError h1 v "get"), State h1 c1)) ∧
  (∀ lr d x,
     v = VRef lr → h1 !! lr = Some (ODict d) → d !! "messages" = Some x →
     (∀ xs, deref h1 x ≠ Some (OList xs)) →
     conversation context request st
     = (Raise (AttributeError h1 x "insert"), State h1 c1)).
Proof.
  intros Hj Hget Hp. split.
  - intros Hv. by apply conversation_non_object_raises.
  - intros lr d x -> Hr Hm Hx. by eapply conversation_non_list_raises.
Qed.

(** X14: when the completion client cannot be built, a well-formed
    request is answered with the error reply of that exception (its
    status code, or 500) and no call goes out. *)
Theorem client_failure_sends_nothing context request st lr h1 c1 d msgs prompt e :
  is_json request = true →
  get_json request st = (Ret (VRef lr), State h1 c1) →
  h1 !! lr = Some (ODict d) →
  original_messages h1 d = Some msgs →
  Forall (is_dict h1) msgs →
  select_prompt context = Some prompt → prompt ≠ "" →
  AsyncAzureOpenAI openai_config = inl e →
  ∃ r st',
    conversation context request st = (Ret r, st') ∧
    resp_status r = match exn_status_code e with
                    | Some status_code => status_code
                    | None => 500%Z
                    end ∧
    resp_body r !! "error" = Some (VStr (exn_str e)) ∧
    st_calls st' = c1.
Proof.
  intros Hj Hget Hr Hmsgs Hall Hp Hne Hclient.
  destruct (conversation_sends _ _ _ _ _ _ _ _ _ Hj Hget Hr Hmsgs Hall Hp Hne)
    as (lm & lsys & lf & h2 & h3 & Hconv & Hsend & _).
  rewrite Hclient in Hsend.
  exists (error_reply e), (State h3 c1). rewrite Hconv.
  split; [by apply conversation_internal_catches|].
  split; [reflexivity|]. split; [apply error_response_error|done].
Qed.

End App.

(** C4: the request POST /conversation/it with the JSON body
    {"messages": "hello"} is decoded, the prompt is selected, and then
    [messages.insert] raises AttributeError before [conversation_internal]
    and its handler are reached: the view function raises, no error body
    is built, and the store holds the decoded body only. *)
Theorem non_list_messages_escape :
  conversation (sample_settings None) sample_client upstream_replies "it"
    (json_request (JObj [("messages", JStr "hello")])) empty_state
  = (Raise (Exn "AttributeError" "'str' object has no attribute 'insert'" None),
     State {[ 1%positive := ODict {[ "messages" := VStr "hello" ]} ]} []).
Proof. vm_compute. reflexivity. Qed.

(** C8, as stated, fails: a request that declares JSON and whose body
    is not a JSON document is not answered with 415; decoding raises Bad
    Request and the view function raises with it. *)
Lemma undecodable_json_is_not_415 :
  body undecodable_request = None ∧
  conversation (sample_settings None) sample_client upstream_replies
    "it" undecodable_request empty_state
  = (Raise (Exn "BadRequest" "400 Bad Request: Failed to decode JSON object" None),
     empty_state) ∧
  ¬ ∃ r st',
      conversation (sample_settings None) sample_client upstream_replies
        "it" undecodable_request empty_state = (Ret r, st') ∧
      resp_status r = 415%Z.
Proof.
  split; [reflexivity|]. split; [reflexivity|].
  intros (r & st' & E & _). discriminate E.
Qed.

(** ** The theorems at the sample deployment *)

Lemma sample_decoded :
  get_json (json_request sample_body) empty_state = (Ret (VRef 6), State sample_heap []).
Proof. vm_compute. reflexivity. Qed.

Lemma sample_messages_are_dicts : Forall (is_dict sample_heap) sample_messages.
Proof. repeat constructor; eexists; reflexivity. Qed.

Lemma not_json_is_415_witness :
  is_json text_request = false ∧
  ∃ r, conversation (sample_settings None) sample_client upstream_replies
         "it" text_request empty_state = (Ret r, empty_state) ∧
       resp_status r = 415%Z ∧
       resp_body r !! "error" = Some (VStr "request must be JSON").
Proof. split; [reflexivity|]. apply not_json_is_415. reflexivity. Defined.

Lemma undeclared_json_is_415 :
  ∃ r, conversation (sample_settings None) sample_client upstream_replies
         "it" (undeclared_json_request sample_body) empty_state = (Ret r, empty_state) ∧
       resp_status r = 415%Z.
Proof. eexists. split; reflexivity. Qed.

Lemma prompt_selection_witness :
  ("finance" ≠ "it" ∧ "finance" ≠ "legal" ∧
   is_json (json_request sample_body) = true ∧
   SYSTEM_PROMPTS !! "finance" = None ∧
   falsy (system_message (azure_openai (sample_settings None))) = true) ∧
  select_prompt (sample_settings (Some "You are an AI assistant.")) "finance"
  = Some "You are an AI assistant." ∧
  conversation (sample_settings None) sample_client upstream_replies
    "finance" (json_request sample_body) empty_state
  = (Ret (error_response "Unsupported context 'finance'" 400), State sample_heap []).
Proof.
  split; [repeat split; done|]. split.
  - destruct (prompt_selection (sample_settings (Some "You are an AI assistant."))
                sample_client upstream_replies) as (_ & _ & H & _).
    by apply H.
  - destruct (prompt_selection (sample_settings None) sample_client upstream_replies)
      as (_ & _ & _ & H).
    apply (H "finance" (json_request sample_body) _ _ _ eq_refl sample_decoded);
      reflexivity.
Defined.

Lemma history_store_failure_aborts_witness :
  init_cosmosdb_client sample_settings_with_history (inr tt) cosmos_fails
  = inl (Exn "ValueError" "Invalid credentials" None) ∧
  startup sample_settings_with_history (inr tt) cosmos_fails create_app
  = (Aborted (Exn "ValueError" "Invalid credentials" None),
     {| cosmos_conversation_client := Some None; cosmos_db_ready := false |}).
Proof.
  split; [reflexivity|].
  apply (history_store_failure_aborts sample_settings_with_history (inr tt) cosmos_fails
           _ create_app). reflexivity.
Defined.


Lemma forwarded_messages_witness :
  (is_json (json_request sample_body) = true ∧
   get_json (json_request sample_body) empty_state = (Ret (VRef 6), State sample_heap []) ∧
   sample_heap !! 6%positive = Some (ODict sample_dict) ∧
   original_messages sample_heap sample_dict = Some sample_messages ∧
   Forall (is_dict sample_heap) sample_messages ∧
   select_prompt (sample_settings None) "it" = Some IT_PROMPT ∧
   IT_PROMPT ≠ "" ∧
   sample_client (openai_config (sample_settings None)) = inr tt) ∧
  ∃ r st' args lf lsys h,
    conversation (sample_settings None) sample_client upstream_replies
      "it" (json_request sample_body) empty_state = (Ret r, st') ∧
    st_calls st' = [(args, h)] ∧
    args !! "messages" = Some (VRef lf) ∧
    h !! lf = Some (OList [VRef lsys; VRef 1; VRef 3]) ∧
    h !! lsys = Some (ODict {[ "role" := VStr "system"; "content" := VStr IT_PROMPT ]}) ∧
    sample_heap !! lsys = None ∧
    Forall (λ m, role_of h m ≠ VStr "tool") [VRef lsys; VRef 1; VRef 3] ∧
    length [VRef lsys; VRef 1; VRef 3] + 1 = length sample_messages + 1.
Proof.
  split.
  - split; [reflexivity|]. split; [exact sample_decoded|].
    split; [reflexivity|]. split; [reflexivity|].
    split; [exact sample_messages_are_dicts|].
    split; [reflexivity|]. split; [discriminate|reflexivity].
  - destruct (forwarded_messages (sample_settings None) sample_client upstream_replies
                "it" (json_request sample_body) empty_state) as [_ H].
    exact (H 6%positive sample_heap [] sample_dict sample_messages IT_PROMPT tt
             eq_refl sample_decoded eq_refl eq_refl sample_messages_are_dicts
             eq_refl ltac:(discriminate) eq_refl).
Defined.

Lemma empty_messages_forward_prompt_only_witness :
  (get_json (json_request (JObj [])) empty_state
   = (Ret (VRef 1), State {[ 1%positive := ODict ∅ ]} []) ∧
   (∅ : gmap string val) !! "messages" = None) ∧
  ∃ r st' args lf lsys h,
    conversation (sample_settings None) sample_client upstream_replies
      "legal" (json_request (JObj [])) empty_state = (Ret r, st') ∧
    st_calls st' = [(args, h)] ∧
    args !! "messages" = Some (VRef lf) ∧
    h !! lf = Some (OList [VRef lsys]) ∧
    h !! lsys = Some (ODict {[ "role" := VStr "system"; "content" := VStr LEGAL_PROMPT ]}).
Proof.
  assert (Hget : get_json (json_request (JObj [])) empty_state
                 = (Ret (VRef 1), State {[ 1%positive := ODict ∅ ]} []))
    by (vm_compute; reflexivity).
  split; [split; [exact Hget|reflexivity]|].
  exact (empty_messages_forward_prompt_only (sample_settings None) sample_client
           upstream_replies "legal" (json_request (JObj [])) empty_state 1
           {[ 1%positive := ODict ∅ ]} [] ∅ LEGAL_PROMPT tt
           eq_refl Hget eq_refl (or_introl eq_refl) eq_refl ltac:(discriminate) eq_refl).
Defined.

Lemma upstream_failure_status_witness :
  (∃ r st',
     conversation (sample_settings None) sample_client upstream_rate_limited
       "it" (json_request sample_body) empty_state = (Ret r, st') ∧
     resp_status r = 429%Z ∧
     resp_body r !! "error" = Some (VStr "Error code: 429")) ∧
  (∃ r st',
     conversation (sample_settings None) sample_client upstream_unreachable
       "it" (json_request sample_body) empty_state = (Ret r, st') ∧
     resp_status r = 500%Z ∧
     resp_body r !! "error" = Some (VStr "Connection error.")).
Proof.
  split.
  - destruct (upstream_failure_status (sample_settings None) sample_client
                upstream_rate_limited) as [_ H].
    destruct (H "it" (json_request sample_body) empty_state 6%positive sample_heap []
                sample_dict sample_messages IT_PROMPT tt
                eq_refl sample_decoded eq_refl eq_refl sample_messages_are_dicts
                eq_refl ltac:(discriminate) eq_refl)
      as (r & st' & args & h & E & _ & Hfail).
    exists r, st'. split; [exact E|]. exact (Hfail _ eq_refl).
  - destruct (upstream_failure_status (sample_settings None) sample_client
                upstream_unreachable) as [_ H].
    destruct (H "it" (json_request sample_body) empty_state 6%positive sample_heap []
                sample_dict sample_messages IT_PROMPT tt
                eq_refl sample_decoded eq_refl eq_refl sample_messages_are_dicts
                eq_refl ltac:(discriminate) eq_refl)
      as (r & st' & args & h & E & _ & Hfail).
    exists r, st'. split; [exact E|]. exact (Hfail _ eq_refl).
Defined.

Lemma history_metadata_echoed_witness :
  ∃ r st',
    conversation (sample_settings None) sample_client upstream_replies
      "it" (json_request sample_body) empty_state = (Ret r, st') ∧
    resp_status r = 200%Z ∧
    resp_body r !! "history_metadata" = Some (VRef 5) ∧
    st_heap st' !! 5%positive = Some (ODict {[ "foo" := VInt 1 ]}).
Proof.
  destruct (history_metadata_echoed (sample_settings None) sample_client upstream_replies
              "it" (json_request sample_body) empty_state 6%positive sample_heap []
              sample_dict sample_messages IT_PROMPT tt
              eq_refl sample_decoded eq_refl eq_refl sample_messages_are_dicts
              eq_refl ltac:(discriminate) eq_refl)
    as (r & st' & args & h & E & _ & Hok).
  destruct (Hok _ _ _ eq_refl eq_refl) as (Hstatus & hm & Hhm & Hmeta).
  change (sample_dict !! "history_metadata") with (Some (VRef 5)) in Hmeta.
  destruct Hmeta as [-> Hkept].
  exists r, st'. split; [exact E|]. split; [exact Hstatus|]. split; [exact Hhm|].
  apply (Hkept 5%positive _ eq_refl); [discriminate|discriminate|reflexivity].
Defined.

Lemma normalization_keeps_caller_data_witness :
  ∃ o st',
    conversation (sample_settings None) sample_client upstream_replies
      "it" (json_request sample_body) busy_state = (o, st') ∧
    st_heap st' !! 7%positive = Some (OList [VStr "kept"]) ∧
    ∃ dm', st_heap st' !! 8%positive = Some (ODict dm') ∧
           dm' !! "content" = Some (VStr "my laptop will not boot").
Proof.
  destruct (conversation (sample_settings None) sample_client upstream_replies
              "it" (json_request sample_body) busy_state) as [o st'] eqn:E.
  exists o, st'. split; [reflexivity|].
  destruct (normalization_keeps_caller_data _ _ _ _ _ _ _ _ E) as [Hold Hnew].
  split; [apply Hold; reflexivity|].
  assert (Hget : get_json (json_request sample_body) busy_state
                 = (Ret (VRef 13), (get_json (json_request sample_body) busy_state).2))
    by (vm_compute; reflexivity).
  destruct (Hnew _ _ eq_refl Hget) as [Hdict _].
  destruct (Hdict 8%positive
              {[ "role" := VStr "user"; "content" := VStr "my laptop will not boot" ]})
    as (dm' & Hl & Hc & _); [vm_compute; reflexivity|].
  exists dm'. split; [exact Hl|]. rewrite Hc. reflexivity.
Defined.

(** ** The further properties at the sample deployment *)

Lemma history_disabled_serves_witness :
  chat_history (sample_settings None) = None ∧
  init_cosmosdb_client (sample_settings None) credential_fails cosmos_fails = inr None ∧
  startup (sample_settings None) credential_fails cosmos_fails create_app
  = (Serving, {| cosmos_conversation_client := Some None; cosmos_db_ready := true |}).
Proof.
  split; [reflexivity|].
  apply (history_disabled_serves (sample_settings None) credential_fails cosmos_fails).
  reflexivity.
Defined.

Lemma account_key_is_the_credential_witness :
  init_cosmosdb_client sample_settings_with_history credential_fails cosmos_records
  = inr (Some {| cosmosdb_endpoint := "https://acct.documents.azure.com:443/";
                 credential := inl "history-key";
                 database_name := Some "db";
                 container_name := Some "conversations";
                 enable_message_feedback := false |}).
Proof.
  exact (account_key_is_the_credential sample_settings_with_history credential_fails
           cosmos_records _ "history-key" eq_refl eq_refl ltac:(discriminate)).
Defined.

Lemma missing_key_asks_default_credential_witness :
  falsy (account_key {| account := Some "acct"; account_key := None;
                        database := Some "db";
                        conversations_container := Some "conversations";
                        enable_feedback := true |}) = true ∧
  init_cosmosdb_client sample_settings_without_key credential_fails cosmos_records
  = inl (Exn "CredentialUnavailableError" "no credential available" None) ∧
  init_cosmosdb_client sample_settings_without_key (inr tt) cosmos_records
  = inr (Some {| cosmosdb_endpoint := "https://acct.documents.azure.com:443/";
                 credential := inr tt;
                 database_name := Some "db";
                 container_name := Some "conversations";
                 enable_message_feedback := true |}).
Proof.
  split; [reflexivity|]. split.
  - exact (missing_key_asks_default_credential sample_settings_without_key
             credential_fails cosmos_records _ eq_refl eq_refl).
  - exact (missing_key_asks_default_credential sample_settings_without_key
             (inr tt) cosmos_records _ eq_refl eq_refl).
Defined.

Lemma endpoint_overrides_resource_witness :
  init_openai_client sample_settings_with_endpoint client_records empty_state
  = (Ret {| api_version := Some "2024-02-15-preview";
            api_key := Some "secret";
            azure_endpoint := "https://gateway.example/" |}, empty_state) ∧
  init_openai_client (sample_settings None) client_records empty_state
  = (Ret {| api_version := Some "2024-02-15-preview";
            api_key := Some "secret";
            azure_endpoint := "https://contoso.openai.azure.com/" |}, empty_state).
Proof.
  split.
  - destruct (endpoint_overrides_resource sample_settings_with_endpoint client_records
                empty_state) as [H _].
    exact (H "https://gateway.example/" eq_refl ltac:(discriminate)).
  - destruct (endpoint_overrides_resource (sample_settings None) client_records
                empty_state) as [_ H].
    exact (H eq_refl).
Defined.

Lemma send_chat_request_rebinds_messages_witness :
  ∃ o st' lf,
    send_chat_request (sample_settings None) sample_client upstream_rate_limited
      (VRef 6) ∅ (State sample_heap []) = (o, st') ∧
    sample_heap !! lf = None ∧
    st_heap st' !! 6%positive = Some (ODict (<["messages" := VRef lf]> sample_dict)) ∧
    st_heap st' !! lf = Some (OList [VRef 1; VRef 3]) ∧
    st_heap st' !! 4%positive = Some (OList sample_messages).
Proof.
  destruct (send_chat_request (sample_settings None) sample_client upstream_rate_limited
              (VRef 6) ∅ (State sample_heap [])) as [o st'] eqn:E.
  destruct (send_chat_request_rebinds_messages (sample_settings None) sample_client
              upstream_rate_limited 6 sample_dict 4 sample_messages ∅ sample_heap []
              o st' eq_refl eq_refl eq_refl sample_messages_are_dicts E)
    as (lf & H1 & H2 & H3 & H4 & _).
  exists o, st', lf. split; [reflexivity|]. split; [exact H1|]. split; [exact H2|].
  split; [exact H3|exact H4].
Defined.

Lemma send_chat_request_without_messages_witness :
  bare_heap !! 1%positive = Some (ODict ∅) ∧
  ∃ o st' args lf hh,
    send_chat_request (sample_settings None) sample_client upstream_replies
      (VRef 1) ∅ (State bare_heap []) = (o, st') ∧
    st_calls st' = [(args, hh)] ∧
    args !! "messages" = Some (VRef lf) ∧
    bare_heap !! lf = None ∧
    hh !! lf = Some (OList []) ∧
    hh !! 1%positive = Some (ODict {[ "messages" := VRef lf ]}).
Proof.
  split; [reflexivity|].
  exact (send_chat_request_without_messages (sample_settings None) sample_client
           upstream_replies 1 ∅ ∅ bare_heap [] tt eq_refl eq_refl eq_refl).
Defined.

Lemma plain_messages_are_dicts : Forall (is_dict plain_heap) plain_messages.
Proof. repeat constructor; eexists; reflexivity. Qed.

Lemma no_tool_message_forwards_all_witness :
  Forall (λ m, role_of plain_heap m ≠ VStr "tool") plain_messages ∧
  ∃ o st' lf,
    send_chat_request (sample_settings None) sample_client upstream_replies
      (VRef 4) ∅ (State plain_heap []) = (o, st') ∧
    plain_heap !! lf = None ∧
    st_heap st' !! 4%positive = Some (ODict (<["messages" := VRef lf]> plain_dict)) ∧
    st_heap st' !! lf = Some (OList plain_messages).
Proof.
  assert (Hnt : Forall (λ m, role_of plain_heap m ≠ VStr "tool") plain_messages)
    by (repeat constructor; discriminate).
  split; [exact Hnt|].
  destruct (send_chat_request (sample_settings None) sample_client upstream_replies
              (VRef 4) ∅ (State plain_heap [])) as [o st'] eqn:E.
  destruct (no_tool_message_forwards_all (sample_settings None) sample_client
              upstream_replies 4 plain_dict 3 plain_messages ∅ plain_heap []
              o st' eq_refl eq_refl eq_refl plain_messages_are_dicts Hnt E)
    as (lf & H1 & H2 & H3).
  exists o, st', lf. split; [reflexivity|]. split; [exact H1|]. split; [exact H2|exact H3].
Defined.

Lemma send_chat_request_twice_witness :
  ∃ o1 st1 o2 st2 lf1 lf2,
    send_chat_request (sample_settings None) sample_client upstream_replies
      (VRef 6) ∅ (State sample_heap []) = (o1, st1) ∧
    send_chat_request (sample_settings None) sample_client upstream_replies
      (VRef 6) ∅ st1 = (o2, st2) ∧
    lf1 ≠ lf2 ∧
    st_heap st2 !! lf1 = Some (OList [VRef 1; VRef 3]) ∧
    st_heap st2 !! lf2 = Some (OList [VRef 1; VRef 3]) ∧
    st_heap st2 !! 6%positive = Some (ODict (<["messages" := VRef lf2]> sample_dict)).
Proof.
  destruct (send_chat_request (sample_settings None) sample_client upstream_replies
              (VRef 6) ∅ (State sample_heap [])) as [o1 st1] eqn:E1.
  destruct (send_chat_request (sample_settings None) sample_client upstream_replies
              (VRef 6) ∅ st1) as [o2 st2] eqn:E2.
  destruct (send_chat_request_twice (sample_settings None) sample_client upstream_replies
              6 sample_dict 4 sample_messages ∅ sample_heap [] o1 st1 o2 st2
              eq_refl eq_refl eq_refl sample_messages_are_dicts E1 E2)
    as (lf1 & lf2 & H1 & H2 & H3 & H4).
  exists o1, st1, o2, st2, lf1, lf2. split; [reflexivity|]. split; [exact E2|].
  split; [exact H1|]. split; [exact H2|]. split; [exact H3|exact H4].
Defined.

Lemma number_message_decoded :
  get_json (json_request (JObj [("messages", JArr [JInt 1])])) empty_state
  = (Ret (VRef 2),
     State {[ 1%positive := OList [VInt 1];
              2%positive := ODict {[ "messages" := VRef 1 ]} ]} []).
Proof. vm_compute. reflexivity. Qed.

Lemma non_object_message_is_500_witness :
  ∃ st',
    conversation (sample_settings None) sample_client upstream_replies
      "it" (json_request (JObj [("messages", JArr [JInt 1])])) empty_state
    = (Ret (error_response "'int' object has no attribute 'get'" 500), st') ∧
    st_calls st' = [].
Proof.
  exact (non_object_message_is_500 (sample_settings None) sample_client
           upstream_replies "it" (json_request (JObj [("messages", JArr [JInt 1])]))
           empty_state 2 _ [] {[ "messages" := VRef 1 ]} [] (VInt 1) [] IT_PROMPT
           eq_refl number_message_decoded eq_refl eq_refl (Forall_nil_2 _)
           ltac:(discriminate) eq_refl ltac:(discriminate)).
Defined.

Lemma conversation_rewrites_the_body_witness :
  ∃ o st' lsys lf,
    conversation (sample_settings None) sample_client upstream_replies
      "it" (json_request sample_body) empty_state = (o, st') ∧
    sample_heap !! lsys = None ∧ sample_heap !! lf = None ∧ lf ≠ 4%positive ∧
    st_heap st' !! 4%positive = Some (OList [VRef lsys; VRef 1; VRef 2; VRef 3]) ∧
    st_heap st' !! 6%positive = Some (ODict (<["messages" := VRef lf]> sample_dict)) ∧
    st_heap st' !! lf = Some (OList [VRef lsys; VRef 1; VRef 3]).
Proof.
  destruct (conversation (sample_settings None) sample_client upstream_replies
              "it" (json_request sample_body) empty_state) as [o st'] eqn:E.
  destruct (conversation_rewrites_the_body (sample_settings None) sample_client
              upstream_replies "it" (json_request sample_body) empty_state
              6 sample_heap [] sample_dict 4 sample_messages IT_PROMPT o st'
              eq_refl sample_decoded eq_refl eq_refl eq_refl sample_messages_are_dicts
              eq_refl ltac:(discriminate) E)
    as (lsys & lf & H1 & H2 & H3 & _ & H5 & H6 & H7).
  exists o, st', lsys, lf. split; [reflexivity|]. split; [exact H1|]. split; [exact H2|].
  split; [exact H3|]. split; [exact H5|]. split; [exact H6|exact H7].
Defined.

Lemma array_body_decoded :
  get_json (json_request (JArr [])) empty_state
  = (Ret (VRef 1), State {[ 1%positive := OList [] ]} []).
Proof. vm_compute. reflexivity. Qed.

Lemma null_messages_decoded :
  get_json (json_request (JObj [("messages", JNull)])) empty_state
  = (Ret (VRef 1), State {[ 1%positive := ODict {[ "messages" := VNone ]} ]} []).
Proof. vm_compute. reflexivity. Qed.

Lemma malformed_body_raises_witness :
  conversation (sample_settings None) sample_client upstream_replies
    "it" (json_request (JArr [])) empty_state
  = (Raise (Exn "AttributeError" "'list' object has no attribute 'get'" None),
     State {[ 1%positive := OList [] ]} []) ∧
  conversation (sample_settings None) sample_client upstream_replies
    "legal" (json_request (JObj [("messages", JNull)])) empty_state
  = (Raise (Exn "AttributeError" "'NoneType' object has no attribute 'insert'" None),
     State {[ 1%positive := ODict {[ "messages" := VNone ]} ]} []).
Proof.
  split.
  - destruct (malformed_body_raises (sample_settings None) sample_client upstream_replies
                "it" (json_request (JArr [])) empty_state _ _ _
                eq_refl array_body_decoded eq_refl) as [H _].
    apply H. intros [d Hd]. discriminate Hd.
  - destruct (malformed_body_raises (sample_settings None) sample_client upstream_replies
                "legal" (json_request (JObj [("messages", JNull)])) empty_state _ _ _
                eq_refl null_messages_decoded eq_refl) as [_ H].
    apply (H 1%positive {[ "messages" := VNone ]} VNone eq_refl eq_refl eq_refl).
    intros xs Hx. discriminate Hx.
Defined.

Lemma client_failure_sends_nothing_witness :
  client_fails (openai_config (sample_settings None))
  = inl (Exn "OpenAIError" "Missing credentials" None) ∧
  ∃ r st',
    conversation (sample_settings None) client_fails upstream_replies
      "it" (json_request sample_body) empty_state = (Ret r, st') ∧
    resp_status r = 500%Z ∧
    resp_body r !! "error" = Some (VStr "Missing credentials") ∧
    st_calls st' = [].
Proof.
  split; [reflexivity|].
  exact (client_failure_sends_nothing (sample_settings None) client_fails upstream_replies
           "it" (json_request sample_body) empty_state 6 sample_heap [] sample_dict
           sample_messages IT_PROMPT _
           eq_refl sample_decoded eq_refl eq_refl sample_messages_are_dicts
           eq_refl ltac:(discriminate) eq_refl).
Defined.

Lemma startup_serves_iff_ready_witness :
  (fst (startup sample_settings_with_history credential_fails cosmos_records create_app)
   = Serving
   ↔ cosmos_db_ready
       (snd (startup sample_settings_with_history credential_fails cosmos_records
               create_app)) = true) ∧
  (fst (startup sample_settings_without_key credential_fails cosmos_records create_app)
   = Serving
   ↔ cosmos_db_ready
       (snd (startup sample_settings_without_key credential_fails cosmos_records
               create_app)) = true).
Proof.
  split.
  - exact (proj1 (startup_serves_iff_ready sample_settings_with_history credential_fails
                    cosmos_records)).
  - exact (proj1 (startup_serves_iff_ready sample_settings_without_key credential_fails
                    cosmos_records)).
Defined.
